(** * EEPROM emulation on the CH32V003 flash: model and verification

    A shallow embedding of [EEPROM.c]: the flash controller is a record of
    the registers and the array the driver touches, the driver functions are
    computations in a state monad over it, and the two local arrays of the
    save routines are a bounded working set whose overflow is undefined. *)

From Stdlib Require Import ZArith List Bool Lia.
Import ListNotations.
Open Scope Z_scope.

(** ** Constants of EEPROM.h and EEPROM.c *)

Definition EEPROM_OK : Z := 0.
Definition EEPROM_ERROR : Z := 1.
Definition EEPROM_ADDRESS : Z := 0x08003C00.
Definition EEPROM_MARKER : Z := 0x5A5A.
Definition FLASH_KEY1 : Z := 0x45670123.
Definition FLASH_KEY2 : Z := 0xCDEF89AB.

(** Size in bytes of the block cleared by one page erase.  The driver only
    names the base address; the part erases 1 KiB around it. *)
Definition PAGE_SIZE : Z := 1024.

(** Number of slots of [varIds] and [varValues], and of the scan loops. *)
Definition MAX_VARS : nat := 10.

(** Start value of [timeout] in [EEPROM_waitForLastOperation]. *)
Definition WAIT_TIMEOUT : nat := Z.to_nat 50000.

(** ** The flash controller

    The controller is hardware, not driver code.  It is modelled by what the
    driver can observe of it: the array is programmed half-word by half-word,
    each program clearing bits only, and erased a page at a time; both need
    an unlocked controller, which the two keys unlock unless it refuses
    them; an operation keeps BSY set for a number of status reads that the
    state supplies, so that waits can time out; and the accesses to the
    array are logged in program order. *)

(** Accesses to the flash array, in program order (newest first in [log]). *)
Inductive event : Type :=
| EvLoad (a : Z)
| EvStore (a d : Z)
| EvErase (a : Z).

Record Flash : Type := mkFlash {
  mem : Z -> Z;          (* half-word held at each address of the array *)
  lock : bool;           (* FLASH->CTLR & FLASH_CTLR_LOCK *)
  pg : bool;             (* FLASH->CTLR & FLASH_CTLR_PG *)
  per : bool;            (* FLASH->CTLR & FLASH_CTLR_PER *)
  key1 : bool;           (* first key taken, second one awaited *)
  wprot : bool;          (* the controller refuses the key sequence *)
  addr : Z;              (* FLASH->ADDR *)
  busy : N;              (* coming reads of STATR that still show BSY *)
  latency : list N;      (* duration, in reads of STATR, of the coming operations *)
  log : list event
}.

Definition set_mem (m : Z -> Z) (s : Flash) : Flash :=
  mkFlash m (lock s) (pg s) (per s) (key1 s) (wprot s) (addr s) (busy s) (latency s) (log s).
Definition set_lock (b : bool) (s : Flash) : Flash :=
  mkFlash (mem s) b (pg s) (per s) (key1 s) (wprot s) (addr s) (busy s) (latency s) (log s).
Definition set_pg (b : bool) (s : Flash) : Flash :=
  mkFlash (mem s) (lock s) b (per s) (key1 s) (wprot s) (addr s) (busy s) (latency s) (log s).
Definition set_per (b : bool) (s : Flash) : Flash :=
  mkFlash (mem s) (lock s) (pg s) b (key1 s) (wprot s) (addr s) (busy s) (latency s) (log s).
Definition set_key1 (b : bool) (s : Flash) : Flash :=
  mkFlash (mem s) (lock s) (pg s) (per s) b (wprot s) (addr s) (busy s) (latency s) (log s).
Definition set_addr (a : Z) (s : Flash) : Flash :=
  mkFlash (mem s) (lock s) (pg s) (per s) (key1 s) (wprot s) a (busy s) (latency s) (log s).
Definition set_busy (n : N) (s : Flash) : Flash :=
  mkFlash (mem s) (lock s) (pg s) (per s) (key1 s) (wprot s) (addr s) n (latency s) (log s).
Definition set_log (l : list event) (s : Flash) : Flash :=
  mkFlash (mem s) (lock s) (pg s) (per s) (key1 s) (wprot s) (addr s) (busy s) (latency s) l.
Definition add_log (e : event) (s : Flash) : Flash := set_log (e :: log s) s.

(** An operation that starts takes its duration from [latency]. *)
Definition start_op (s : Flash) : Flash :=
  match latency s with
  | [] => set_busy 0%N s
  | n :: l =>
      mkFlash (mem s) (lock s) (pg s) (per s) (key1 s) (wprot s) (addr s) n l (log s)
  end.

Definition upd (m : Z -> Z) (a v : Z) : Z -> Z :=
  fun x => if x =? a then v else m x.

Definition same_page (a b : Z) : bool := (a / PAGE_SIZE =? b / PAGE_SIZE).

(** A page erase sets every half-word of the page to all ones. *)
Definition erase_page (m : Z -> Z) (a0 : Z) : Z -> Z :=
  fun x => if same_page x a0 then 0xFFFF else m x.

(** ** Results and the monad of driver code *)

Inductive Res (A : Type) : Type :=
| Done (a : A) (s : Flash)
| Undefined.                      (* the C program has no defined behaviour *)
Arguments Done {A} a s.
Arguments Undefined {A}.

Definition M (A : Type) : Type := Flash -> Res A.

Definition ret {A : Type} (a : A) : M A := fun s => Done a s.
Definition bind {A B : Type} (c : M A) (k : A -> M B) : M B :=
  fun s => match c s with
           | Done a s' => k a s'
           | Undefined => Undefined
           end.
Definition undefined {A : Type} : M A := fun _ => Undefined.
Definition modify (f : Flash -> Flash) : M unit := fun s => Done tt (f s).

Declare Scope drv_scope.
Delimit Scope drv_scope with drv.
Notation "x <- c ;; k" := (bind c (fun x => k))
  (at level 100, c at next level, right associativity) : drv_scope.
Notation "c ;; k" := (bind c (fun _ => k))
  (at level 100, right associativity) : drv_scope.
Open Scope drv_scope.

Definition value_of {A : Type} (r : Res A) : option A :=
  match r with Done a _ => Some a | Undefined => None end.
Definition state_of {A : Type} (r : Res A) : option Flash :=
  match r with Done _ s => Some s | Undefined => None end.

(** The state a computation leaves ([s] itself when it has none). *)
Definition after {A : Type} (c : M A) (s : Flash) : Flash :=
  match c s with Done _ s' => s' | Undefined => s end.

(** ** Register and array accesses *)

(** A volatile 16-bit read of the flash array at address [a]. *)
Definition load16 (a : Z) : M Z :=
  fun s => Done (mem s a) (add_log (EvLoad a) s).

(** A volatile 16-bit store of [d] at address [a]: with programming enabled
    on an unlocked controller the half-word is programmed, which can only
    clear bits. *)
Definition store16 (a d : Z) : M unit :=
  fun s =>
    let s1 := add_log (EvStore a d) s in
    if negb (lock s1) && pg s1
    then Done tt (start_op (set_mem (upd (mem s1) a (Z.land (mem s1 a) d)) s1))
    else Done tt s1.

(** [FLASH->STATR & FLASH_STATR_BSY]. *)
Definition read_BSY (s : Flash) : bool * Flash :=
  if (0 <? busy s)%N then (true, set_busy (N.pred (busy s)) s) else (false, s).

(** [FLASH->KEYR = k]. *)
Definition write_KEYR (k : Z) : M unit :=
  modify (fun s =>
    if wprot s then s
    else if k =? FLASH_KEY1 then set_key1 true s
    else if (k =? FLASH_KEY2) && key1 s then set_key1 false (set_lock false s)
    else set_key1 false s).

(** [FLASH->CTLR |= FLASH_CTLR_STRT]: starts the page erase that is set up. *)
Definition ctlr_set_STRT : M unit :=
  fun s =>
    if negb (lock s) && per s
    then Done tt (start_op (set_mem (erase_page (mem s) (addr s))
                                     (add_log (EvErase (addr s)) s)))
    else Done tt s.

(** ** EEPROM.c *)

(** [static uint16_t EEPROM_calcCRC(uint16_t id, uint16_t value)] *)
Definition EEPROM_calcCRC (id value : Z) : Z := (Z.lxor id value) mod 65536.

(** [while ((FLASH->STATR & FLASH_STATR_BSY) && timeout) timeout--;] *)
Fixpoint poll (timeout : nat) (s : Flash) : nat * Flash :=
  let (bsy, s1) := read_BSY s in
  match timeout with
  | O => (O, s1)
  | S t => if bsy then poll t s1 else (timeout, s1)
  end.

Definition EEPROM_waitForLastOperation : M Z :=
  fun s =>
    let (timeout, s1) := poll WAIT_TIMEOUT s in
    Done (if (0 <? timeout)%nat then EEPROM_OK else EEPROM_ERROR) s1.

Definition EEPROM_unlockFlash : M unit :=
  fun s =>
    if lock s
    then (write_KEYR FLASH_KEY1 ;; write_KEYR FLASH_KEY2) s
    else Done tt s.

Definition EEPROM_lockFlash : M unit := modify (set_lock true).

Definition EEPROM_format : M Z :=
  EEPROM_unlockFlash ;;
  status <- EEPROM_waitForLastOperation ;;
  if negb (status =? EEPROM_OK) then
    (EEPROM_lockFlash ;; ret status)
  else
    modify (set_per true) ;;
    modify (set_addr EEPROM_ADDRESS) ;;
    ctlr_set_STRT ;;
    status <- EEPROM_waitForLastOperation ;;
    modify (set_per false) ;;
    w <- load16 EEPROM_ADDRESS ;;
    if negb (w =? 0xFFFF) then
      (EEPROM_lockFlash ;; ret EEPROM_ERROR)
    else
      (EEPROM_lockFlash ;; ret status).

Definition EEPROM_writeHalfWord (address data : Z) : M Z :=
  EEPROM_unlockFlash ;;
  status <- EEPROM_waitForLastOperation ;;
  if negb (status =? EEPROM_OK) then
    (EEPROM_lockFlash ;; ret status)
  else
    modify (set_pg true) ;;
    store16 address data ;;
    status <- EEPROM_waitForLastOperation ;;
    modify (set_pg false) ;;
    w <- load16 address ;;
    if negb (w =? data) then
      (EEPROM_lockFlash ;; ret EEPROM_ERROR)
    else
      (EEPROM_lockFlash ;; ret status).

Definition EEPROM_isInitialized : M Z :=
  w <- load16 EEPROM_ADDRESS ;;
  ret (if w =? EEPROM_MARKER then 1 else 0).

(** [uint32_t] addition, as in [currentAddr += 6]. *)
Definition add32 (a b : Z) : Z := (a + b) mod 2 ^ 32.

(** The [for] loop of [EEPROM_findVar]; [n] iterations are left.  [Some a]
    stands for "return 1 with [*addr = a]", [None] for "return 0". *)
Fixpoint findVar_loop (n : nat) (id currentAddr : Z) : M (option Z) :=
  match n with
  | O => ret None
  | S n' =>
      entryId <- load16 currentAddr ;;
      if entryId =? 0xFFFF then ret None
      else
        entryValue <- load16 (add32 currentAddr 2) ;;
        entryCRC <- load16 (add32 currentAddr 4) ;;
        if (Z.land entryId 0xFF =? id)
           && (entryCRC =? EEPROM_calcCRC entryId entryValue)
        then ret (Some currentAddr)
        else findVar_loop n' id (add32 currentAddr 6)
  end.

Definition EEPROM_findVar (id : Z) : M (option Z) :=
  init <- EEPROM_isInitialized ;;
  if init =? 0 then ret None
  else findVar_loop MAX_VARS id (EEPROM_ADDRESS + 4).

Definition EEPROM_readVar (id : Z) : M Z :=
  r <- EEPROM_findVar id ;;
  match r with
  | Some a => load16 (add32 a 2)
  | None => ret 0xFFFF
  end.

Definition EEPROM_varExists (id : Z) : M Z :=
  r <- EEPROM_findVar id ;;
  ret (match r with Some _ => 1 | None => 0 end).

(** *** The working set of the save routines

    [varIds], [varValues] and [varCount] are kept as the list of the
    [varCount] pairs stored so far.  Both arrays have [MAX_VARS] elements, so
    the store at index [varCount] is outside them once ten pairs are held. *)
Definition workset : Type := list (Z * Z).

Definition ws_push (ws : workset) (id value : Z) : M workset :=
  if (length ws <? MAX_VARS)%nat then ret (ws ++ [(id, value)]) else undefined.

(** Element [j] of an array of the caller; there is none past its end. *)
Definition arr_get (l : list Z) (j : nat) : M Z :=
  match nth_error l j with
  | Some x => ret x
  | None => undefined
  end.

(** The scan loop of [EEPROM_saveVar]. *)
Fixpoint saveVar_scan (n : nat) (id currentAddr : Z) (ws : workset) : M workset :=
  match n with
  | O => ret ws
  | S n' =>
      entryId <- load16 currentAddr ;;
      if entryId =? 0xFFFF then ret ws
      else
        entryValue <- load16 (add32 currentAddr 2) ;;
        entryCRC <- load16 (add32 currentAddr 4) ;;
        if Z.land entryId 0xFF =? id then
          saveVar_scan n' id (add32 currentAddr 6) ws
        else
          ws' <- (if entryCRC =? EEPROM_calcCRC entryId entryValue
                  then ws_push ws (Z.land entryId 0xFF) entryValue
                  else ret ws) ;;
          saveVar_scan n' id (add32 currentAddr 6) ws'
  end.

(** Erase, then marker and reserved half-word: the three guarded calls that
    open both branches of the save routines.  The status is the one the
    caller tests before going on. *)
Definition erase_and_mark : M Z :=
  status <- EEPROM_format ;;
  if negb (status =? EEPROM_OK) then ret status
  else
    status <- EEPROM_writeHalfWord EEPROM_ADDRESS EEPROM_MARKER ;;
    if negb (status =? EEPROM_OK) then ret status
    else EEPROM_writeHalfWord (EEPROM_ADDRESS + 2) 0.

(** The write loop that ends both save routines. *)
Fixpoint write_vars (ws : workset) (currentAddr : Z) : M Z :=
  match ws with
  | [] => ret EEPROM_OK
  | (varId, varValue) :: rest =>
      let varCRC := EEPROM_calcCRC varId varValue in
      status <- EEPROM_writeHalfWord currentAddr varId ;;
      if negb (status =? EEPROM_OK) then ret status
      else
        status <- EEPROM_writeHalfWord (add32 currentAddr 2) varValue ;;
        if negb (status =? EEPROM_OK) then ret status
        else
          status <- EEPROM_writeHalfWord (add32 currentAddr 4) varCRC ;;
          if negb (status =? EEPROM_OK) then ret status
          else write_vars rest (add32 currentAddr 6)
  end.

(** Everything from "Now write all variables to a new page" on. *)
Definition rewrite_page (ws : workset) : M Z :=
  status <- erase_and_mark ;;
  if negb (status =? EEPROM_OK) then ret status
  else write_vars ws (EEPROM_ADDRESS + 4).

(** [EEPROM_saveVar] up to "Add our new variable": the working set to write,
    or the status of an early return. *)
Definition saveVar_collect (id value : Z) : M (Z + workset) :=
  init <- EEPROM_isInitialized ;;
  r <- (if init =? 0 then
          status <- erase_and_mark ;;
          if negb (status =? EEPROM_OK) then ret (inl status) else ret (inr [])
        else
          ws <- saveVar_scan MAX_VARS id (EEPROM_ADDRESS + 4) [] ;;
          ret (inr ws)) ;;
  match r with
  | inl status => ret (inl status)
  | inr ws =>
      ws' <- ws_push ws id value ;;
      ret (inr ws')
  end.

Definition EEPROM_saveVar (id value : Z) : M Z :=
  r <- saveVar_collect id value ;;
  match r with
  | inl status => ret status
  | inr ws => rewrite_page ws
  end.

(** The inner loop of [EEPROM_saveVars] that looks [baseId] up in
    [ids[0..count)]; the result is [skip]. *)
Fixpoint saveVars_skip (n j : nat) (ids : list Z) (baseId : Z) : M Z :=
  match n with
  | O => ret 0
  | S n' =>
      x <- arr_get ids j ;;
      if x =? baseId then ret 1 else saveVars_skip n' (S j) ids baseId
  end.

(** The scan loop of [EEPROM_saveVars]. *)
Fixpoint saveVars_scan (n : nat) (ids : list Z) (count currentAddr : Z)
    (ws : workset) : M workset :=
  match n with
  | O => ret ws
  | S n' =>
      entryId <- load16 currentAddr ;;
      if entryId =? 0xFFFF then ret ws
      else
        entryValue <- load16 (add32 currentAddr 2) ;;
        entryCRC <- load16 (add32 currentAddr 4) ;;
        ws' <- (if entryCRC =? EEPROM_calcCRC entryId entryValue then
                  let baseId := Z.land entryId 0xFF in
                  skip <- saveVars_skip (Z.to_nat count) 0 ids baseId ;;
                  if skip =? 0 then ws_push ws baseId entryValue else ret ws
                else ret ws) ;;
        saveVars_scan n' ids count (add32 currentAddr 6) ws'
  end.

(** The loop that appends the new pairs, with its capacity guard. *)
Fixpoint saveVars_append (n j : nat) (ids values : list Z) (ws : workset)
    : M workset :=
  match n with
  | O => ret ws
  | S n' =>
      if (MAX_VARS <=? length ws)%nat then ret ws
      else
        id <- arr_get ids j ;;
        value <- arr_get values j ;;
        ws' <- ws_push ws id value ;;
        saveVars_append n' (S j) ids values ws'
  end.

(** [EEPROM_saveVars] up to the end of the append loop. *)
Definition saveVars_collect (ids values : list Z) (count : Z) : M (Z + workset) :=
  init <- EEPROM_isInitialized ;;
  r <- (if init =? 0 then
          status <- erase_and_mark ;;
          if negb (status =? EEPROM_OK) then ret (inl status) else ret (inr [])
        else
          ws <- saveVars_scan MAX_VARS ids count (EEPROM_ADDRESS + 4) [] ;;
          ret (inr ws)) ;;
  match r with
  | inl status => ret (inl status)
  | inr ws =>
      ws' <- saveVars_append (Z.to_nat count) 0 ids values ws ;;
      ret (inr ws')
  end.

Definition EEPROM_saveVars (ids values : list Z) (count : Z) : M Z :=
  r <- saveVars_collect ids values count ;;
  match r with
  | inl status => ret status
  | inr ws => rewrite_page ws
  end.

(** ** Reference states *)

(** A blank part after reset: erased array, locked controller, idle. *)
Definition blank : Flash :=
  mkFlash (fun _ => 0xFFFF) true false false false false 0 0%N [] [].


(** ** The region as the driver reads it *)

(** One 6-byte record: the three half-words as they are stored. *)
Record entry : Type := mkEntry { e_id : Z; e_value : Z; e_check : Z }.

Definition slot_addr (k : nat) : Z := EEPROM_ADDRESS + 4 + 6 * Z.of_nat k.

Definition slot (m : Z -> Z) (k : nat) : entry :=
  mkEntry (m (slot_addr k)) (m (slot_addr k + 2)) (m (slot_addr k + 4)).

Definition crc_ok (e : entry) : bool :=
  e_check e =? EEPROM_calcCRC (e_id e) (e_value e).

Definition base_id (e : entry) : Z := Z.land (e_id e) 0xFF.

Definition in_use (e : entry) : bool := negb (e_id e =? 0xFFFF).

Fixpoint take_while {A : Type} (p : A -> bool) (l : list A) : list A :=
  match l with
  | [] => []
  | x :: l' => if p x then x :: take_while p l' else []
  end.

Fixpoint find_index {A : Type} (p : A -> bool) (l : list A) : option nat :=
  match l with
  | [] => None
  | x :: l' => if p x then Some O else option_map S (find_index p l')
  end.

(** Slots [k], [k+1], ... of at most [n] slots, up to the first one whose Id
    half-word is erased. *)
Definition scan (m : Z -> Z) (k n : nat) : list entry :=
  take_while in_use (map (slot m) (seq k n)).

Definition initialized (m : Z -> Z) : bool := m EEPROM_ADDRESS =? EEPROM_MARKER.

(** The entries of the region: none without the marker, else the first ten
    slots up to the end-of-data sentinel. *)
Definition entries (m : Z -> Z) : list entry :=
  if initialized m then scan m 0 MAX_VARS else [].

(** An entry answers a request for [id]: low byte of Id and Check both fit. *)
Definition matches (id : Z) (e : entry) : bool := (base_id e =? id) && crc_ok e.

(** Lookup as the specification words it: the address of the first entry,
    in storage order, that answers [id]. *)
Definition lookup (id : Z) (m : Z -> Z) : option Z :=
  option_map slot_addr (find_index (matches id) (entries m)).

(** Read as the specification words it. *)
Definition read_value (id : Z) (m : Z -> Z) : Z :=
  match find (matches id) (entries m) with
  | Some e => e_value e
  | None => 0xFFFF
  end.

(** What a save keeps of an entry: the low byte of its Id and its value. *)
Definition pair_of (e : entry) : Z * Z := (base_id e, e_value e).

(** The record the write loop stores for a pair of the working set. *)
Definition mk_entry (p : Z * Z) : entry :=
  mkEntry (fst p) (snd p) (EEPROM_calcCRC (fst p) (snd p)).

(** [EEPROM_saveVar] keeps an entry: another id, and a Check that fits. *)
Definition keep1 (id : Z) (e : entry) : bool :=
  negb (base_id e =? id) && crc_ok e.

Definition listed (ids : list Z) (b : Z) : bool := existsb (fun x => x =? b) ids.

(** [EEPROM_saveVars] keeps an entry: a Check that fits, and an id that is
    not in the new list. *)
Definition keep2 (ids : list Z) (e : entry) : bool :=
  crc_ok e && negb (listed ids (base_id e)).

Definition survivors1 (id : Z) (m : Z -> Z) : workset :=
  map pair_of (filter (keep1 id) (entries m)).

Definition survivors2 (ids : list Z) (m : Z -> Z) : workset :=
  map pair_of (filter (keep2 ids) (entries m)).

(** The first [count] elements of the caller's arrays, paired. *)
Definition new_ids (ids : list Z) (count : Z) : list Z :=
  firstn (Z.to_nat count) ids.
Definition new_pairs (ids values : list Z) (count : Z) : workset :=
  combine (firstn (Z.to_nat count) ids) (firstn (Z.to_nat count) values).

(** Addresses [EEPROM_findVar] loads while it scans, in program order. *)
Fixpoint scan_loads (m : Z -> Z) (id : Z) (k n : nat) : list Z :=
  match n with
  | O => []
  | S n' =>
      let a := slot_addr k in
      if in_use (slot m k) then
        a :: a + 2 :: a + 4 ::
          (if matches id (slot m k) then [] else scan_loads m id (S k) n')
      else [a]
  end.

Definition findVar_loads (id : Z) (m : Z -> Z) : list Z :=
  EEPROM_ADDRESS :: (if initialized m then scan_loads m id 0 MAX_VARS else []).

(** The state after the loads of [l], made in that order. *)
Definition logged (l : list Z) (s : Flash) : Flash :=
  set_log (rev (map EvLoad l) ++ log s) s.

(** ** Vocabulary of the statements *)

(** What a call of [EEPROM_writeHalfWord] guarantees. *)
Definition write_post (a d : Z) (s : Flash) (st : Z) (s' : Flash) : Prop :=
  (st = EEPROM_OK \/ st = EEPROM_ERROR)
  /\ (forall x, x <> a -> mem s' x = mem s x)
  /\ (st = EEPROM_OK -> mem s' a = d).

(** What a call of [EEPROM_format] guarantees. *)
Definition format_post (s : Flash) (st : Z) (s' : Flash) : Prop :=
  (st = EEPROM_OK \/ st = EEPROM_ERROR)
  /\ (mem s' = mem s \/ mem s' = erase_page (mem s) EEPROM_ADDRESS)
  /\ (st = EEPROM_OK -> mem s' EEPROM_ADDRESS = 0xFFFF).

(** Addresses of the page that holds the region. *)
Definition in_region (x : Z) : Prop :=
  EEPROM_ADDRESS <= x < EEPROM_ADDRESS + PAGE_SIZE.

(** Addresses [EEPROM_readVar] loads, in program order. *)
Definition readVar_loads (id : Z) (m : Z -> Z) : list Z :=
  findVar_loads id m ++ match lookup id m with
                        | Some a => [a + 2]
                        | None => []
                        end.

(** The working set [EEPROM_saveVars] writes: the survivors, then the new
    pairs as far as the ten slots reach. *)
Definition saveVars_set (ids values : list Z) (count : Z) (m : Z -> Z) : workset :=
  let kept := survivors2 (new_ids ids count) m in
  kept ++ firstn (MAX_VARS - length kept) (new_pairs ids values count).

(** A state that differs from [s] by loads appended to the access log only:
    same array, same controller registers. *)
Definition read_only (s s' : Flash) : Prop := exists l, s' = logged l s.

(** The entries whose Check fits, and the low bytes of their Ids. *)
Definition live (m : Z -> Z) : list entry := filter crc_ok (entries m).

(** The half-words of one record, and of the whole page, in the order the
    rewrite programs them. *)
Definition slot_words (k : nat) (p : Z * Z) : list (Z * Z) :=
  [(slot_addr k, fst p);
   (slot_addr k + 2, snd p);
   (slot_addr k + 4, EEPROM_calcCRC (fst p) (snd p))].

Fixpoint ws_words (k : nat) (ws : workset) : list (Z * Z) :=
  match ws with
  | [] => []
  | p :: rest => slot_words k p ++ ws_words (S k) rest
  end.

Definition page_words (ws : workset) : list (Z * Z) :=
  (EEPROM_ADDRESS, EEPROM_MARKER) :: (EEPROM_ADDRESS + 2, 0) :: ws_words 0 ws.

(** Programming each half-word of a list in turn, giving up at the first
    call that does not return [EEPROM_OK]. *)
Fixpoint write_all (l : list (Z * Z)) : M Z :=
  match l with
  | [] => ret EEPROM_OK
  | (a, d) :: rest =>
      status <- EEPROM_writeHalfWord a d ;;
      if negb (status =? EEPROM_OK) then ret status else write_all rest
  end.

(** [programmed l s s']: every half-word of [l] was programmed in turn from
    [s], each call returning [EEPROM_OK], and [s'] is the state reached. *)
Inductive programmed : list (Z * Z) -> Flash -> Flash -> Prop :=
| programmed_nil : forall s, programmed [] s s
| programmed_cons : forall a d l s s1 s2,
    EEPROM_writeHalfWord a d s = Done EEPROM_OK s1 ->
    programmed l s1 s2 ->
    programmed ((a, d) :: l) s s2.

(** ** More reference states *)

(** A region with a header and two entries, the first with a flipped bit in
    its value: slot 0 holds (Id 1, Value 11, Check 1 xor 10), slot 1 holds
    (Id 2, Value 20, Check 2 xor 20). *)
Definition corrupted : Flash :=
  set_mem (fun a =>
             if a =? EEPROM_ADDRESS then EEPROM_MARKER
             else if a =? EEPROM_ADDRESS + 2 then 0
             else if a =? EEPROM_ADDRESS + 4 then 1
             else if a =? EEPROM_ADDRESS + 6 then 11
             else if a =? EEPROM_ADDRESS + 8 then 11
             else if a =? EEPROM_ADDRESS + 10 then 2
             else if a =? EEPROM_ADDRESS + 12 then 20
             else if a =? EEPROM_ADDRESS + 14 then 22
             else 0xFFFF) blank.

(** A blank part whose seventh flash operation -- the program of the first
    Id half-word of the rewrite -- stays busy past the time-out. *)
Definition slow_seventh : Flash :=
  mkFlash (fun _ => 0xFFFF) true false false false false 0 0%N
          [0; 0; 0; 0; 0; 0; 60000]%N [].

(** A region filled by one batch save of ten ids. *)
Definition full_region : Flash :=
  after (EEPROM_saveVars [0; 1; 2; 3; 4; 5; 6; 7; 8; 9]
                         [100; 101; 102; 103; 104; 105; 106; 107; 108; 109] 10)
        blank.

(** ** Further reference states *)

(** A region without the marker whose first slot still holds a record with
    a fitting Check (Id 7, Value 70), as an erase that was cut short or a
    foreign image could leave it. *)
Definition unmarked : Flash :=
  set_mem (fun a =>
             if a =? EEPROM_ADDRESS + 4 then 7
             else if a =? EEPROM_ADDRESS + 6 then 70
             else if a =? EEPROM_ADDRESS + 8 then 65
             else 0xFFFF) blank.

(** A 16-bit value. *)
Definition halfword (x : Z) : Prop := 0 <= x < 65536.

(** ** A working part, and the demonstration program *)


(** The part works: it takes the keys, and no operation, pending or to come,
    keeps BSY set as long as a wait polls. *)
Definition working (s : Flash) : Prop :=
  wprot s = false
  /\ (busy s < 50000)%N
  /\ Forall (fun n => (n < 50000)%N) (latency s).

(** Every cell of the array holds a 16-bit value. *)
Definition halfwords (m : Z -> Z) : Prop := forall x, halfword (m x).

(** Page erases started and half-word stores issued, as the log counts
    them. *)
Definition erases (l : list event) : nat :=
  length (filter (fun e => match e with EvErase _ => true | _ => false end) l).

Definition stores (l : list event) : nat :=
  length (filter (fun e => match e with EvStore _ _ => true | _ => false end) l).

(** From [s] to [s'], [e] page erases were started and [w] half-words
    stored. *)
Definition spent (s s' : Flash) (e w : nat) : Prop :=
  erases (log s') = (erases (log s) + e)%nat
  /\ stores (log s') = (stores (log s) + w)%nat.

(** A working part whose array holds half-words. *)
Definition sound (s : Flash) : Prop := working s /\ halfwords (mem s).

(** A pair of the working set holds half-words. *)
Definition pair_halfwords (p : Z * Z) : Prop := halfword (fst p) /\ halfword (snd p).

(** [void EEPROM_init(void)]: nothing to initialise. *)
Definition EEPROM_init : M unit := ret tt.

(** The loop of [main], cut after [n] passes.  A pass prints [test], adds
    one to it (a [uint16_t]) and saves it under id 1, without looking at the
    status.  [out] collects the numbers printed; the delays are left out. *)
Fixpoint main_loop (n : nat) (test : Z) (out : list Z) : M (Z * list Z) :=
  match n with
  | O => ret (test, out)
  | S n' =>
      let out' := out ++ [test] in
      let test' := (test + 1) mod 65536 in
      EEPROM_saveVar 1 test' ;;
      main_loop n' test' out'
  end.

(** [main] up to the end of the [n]-th pass of its loop. *)
Definition main (n : nat) : M (Z * list Z) :=
  EEPROM_init ;;
  test <- EEPROM_readVar 1 ;;
  main_loop n test [].

(** Room for one more id: an initialised region has fewer than ten live
    entries with other ids. *)
Definition has_room (id : Z) (m : Z -> Z) : Prop :=
  initialized m = true -> (length (survivors1 id m) < MAX_VARS)%nat.

(** ** The hardware steps leave the array alone, except the two that program it *)

Lemma bind_done {A B : Type} (c : M A) (k : A -> M B) s a s1 :
  c s = Done a s1 -> bind c k s = k a s1.
Proof. intros H. unfold bind. now rewrite H. Qed.

Lemma bind_inv {A B : Type} (c : M A) (k : A -> M B) s b s' :
  bind c k s = Done b s' ->
  exists a s1, c s = Done a s1 /\ k a s1 = Done b s'.
Proof.
  unfold bind. destruct (c s) as [a s1|]; [|discriminate].
  intros H. now exists a, s1.
Qed.

Lemma bind_assoc {A B C : Type} (c : M A) (f : A -> M B) (g : B -> M C) s :
  bind (bind c f) g s = bind c (fun x => bind (f x) g) s.
Proof. unfold bind. now destruct (c s). Qed.

(** [step H] runs the first action of the goal with its known outcome [H];
    [passed] takes the branch of a status test that saw [EEPROM_OK]. *)
Ltac step H := rewrite (bind_done _ _ _ _ _ H).
Ltac passed := change (negb (EEPROM_OK =? EEPROM_OK)) with false; cbv iota.

Lemma poll_mem (t : nat) (s : Flash) : mem (snd (poll t s)) = mem s.
Proof.
  revert s. induction t as [|t IH]; intros s; simpl; unfold read_BSY;
    destruct (0 <? busy s)%N; simpl; try reflexivity.
  now rewrite IH.
Qed.

Lemma status_cases (b : bool) :
  (if b then EEPROM_OK else EEPROM_ERROR) = EEPROM_OK
  \/ (if b then EEPROM_OK else EEPROM_ERROR) = EEPROM_ERROR.
Proof. destruct b; auto. Qed.

Lemma wait_total (s : Flash) :
  exists st s', EEPROM_waitForLastOperation s = Done st s'
                /\ mem s' = mem s
                /\ (st = EEPROM_OK \/ st = EEPROM_ERROR).
Proof.
  unfold EEPROM_waitForLastOperation.
  pose proof (poll_mem WAIT_TIMEOUT s) as Hm.
  destruct (poll WAIT_TIMEOUT s) as [t s1]. simpl in Hm.
  eexists _, s1. split; [reflexivity|]. split; [exact Hm|apply status_cases].
Qed.

Lemma unlock_total (s : Flash) :
  exists s', EEPROM_unlockFlash s = Done tt s' /\ mem s' = mem s.
Proof.
  unfold EEPROM_unlockFlash, write_KEYR, modify, bind.
  destruct (lock s); [|now exists s].
  destruct (wprot s) eqn:Hw; simpl.
  - rewrite Hw. now eexists.
  - rewrite Hw. simpl. now eexists.
Qed.

Lemma start_op_mem (s : Flash) : mem (start_op s) = mem s.
Proof. unfold start_op. now destruct (latency s). Qed.

Lemma store16_total (a d : Z) (s : Flash) :
  exists s', store16 a d s = Done tt s'
    /\ (mem s' = mem s \/ mem s' = upd (mem s) a (Z.land (mem s a) d)).
Proof.
  unfold store16. simpl.
  destruct (negb (lock s) && pg s); eexists; (split; [reflexivity|]).
  - right. now rewrite start_op_mem.
  - now left.
Qed.

Lemma strt_total (s : Flash) :
  exists s', ctlr_set_STRT s = Done tt s'
    /\ (mem s' = mem s \/ mem s' = erase_page (mem s) (addr s)).
Proof.
  unfold ctlr_set_STRT.
  destruct (negb (lock s) && per s); eexists; (split; [reflexivity|]).
  - right. now rewrite start_op_mem.
  - now left.
Qed.

Lemma upd_same m a v : upd m a v a = v.
Proof. unfold upd. now rewrite Z.eqb_refl. Qed.

Lemma upd_other m a v x : x <> a -> upd m a v x = m x.
Proof. intros H. unfold upd. apply Z.eqb_neq in H. now rewrite H. Qed.

Lemma writeHalfWord_total (a d : Z) (s : Flash) :
  exists st s', EEPROM_writeHalfWord a d s = Done st s' /\ write_post a d s st s'.
Proof.
  unfold EEPROM_writeHalfWord.
  destruct (unlock_total s) as (s1 & H1 & M1).
  step H1.
  destruct (wait_total s1) as (st1 & s2 & H2 & M2 & C2).
  step H2.
  destruct C2 as [-> | ->]; simpl.
  - unfold modify at 1. unfold bind at 1.
    destruct (store16_total a d (set_pg true s2)) as (s3 & H3 & M3).
    step H3.
    destruct (wait_total s3) as (st4 & s4 & H4 & M4 & C4).
    step H4.
    unfold modify, load16, EEPROM_lockFlash, bind, ret; simpl.
    assert (Hx : forall x, x <> a -> mem s4 x = mem s x).
    { intros x Hx. rewrite M4. simpl in M3.
      destruct M3 as [-> | ->]; [|rewrite upd_other by exact Hx];
        now rewrite M2, M1. }
    destruct (mem s4 a =? d) eqn:E; simpl.
    + eexists _, _. split; [reflexivity|]. split; [exact C4|].
      split; [exact Hx|]. intros _. now apply Z.eqb_eq.
    + eexists _, _. split; [reflexivity|]. split; [now right|].
      split; [exact Hx|]. unfold EEPROM_ERROR, EEPROM_OK. discriminate.
  - unfold EEPROM_lockFlash, modify, bind, ret; simpl.
    eexists _, _. split; [reflexivity|]. split; [now right|].
    split; [intros x _; simpl; now rewrite M2, M1|].
    unfold EEPROM_ERROR, EEPROM_OK. discriminate.
Qed.

Lemma format_total (s : Flash) :
  exists st s', EEPROM_format s = Done st s' /\ format_post s st s'.
Proof.
  unfold EEPROM_format.
  destruct (unlock_total s) as (s1 & H1 & M1).
  step H1.
  destruct (wait_total s1) as (st1 & s2 & H2 & M2 & C2).
  step H2.
  destruct C2 as [-> | ->]; simpl.
  - unfold modify at 1 2. unfold bind at 1 2.
    destruct (strt_total (set_addr EEPROM_ADDRESS (set_per true s2)))
      as (s3 & H3 & M3).
    step H3.
    destruct (wait_total s3) as (st4 & s4 & H4 & M4 & C4).
    step H4.
    unfold modify, load16, EEPROM_lockFlash, bind, ret; simpl.
    assert (Hm : mem s4 = mem s \/ mem s4 = erase_page (mem s) EEPROM_ADDRESS).
    { rewrite M4. simpl in M3. destruct M3 as [-> | ->]; rewrite M2, M1; auto. }
    destruct (mem s4 EEPROM_ADDRESS =? 65535) eqn:E; simpl.
    + eexists _, _. split; [reflexivity|]. split; [exact C4|].
      split; [exact Hm|]. intros _. now apply Z.eqb_eq.
    + eexists _, _. split; [reflexivity|]. split; [now right|].
      split; [exact Hm|]. unfold EEPROM_ERROR, EEPROM_OK. discriminate.
  - unfold EEPROM_lockFlash, modify, bind, ret; simpl.
    eexists _, _. split; [reflexivity|]. split; [now right|].
    split; [left; simpl; now rewrite M2, M1|].
    unfold EEPROM_ERROR, EEPROM_OK. discriminate.
Qed.

(** ** The read side *)

Lemma logged_nil s : logged [] s = s.
Proof. now destruct s. Qed.

Lemma logged_cons a l s : logged (a :: l) s = logged l (add_log (EvLoad a) s).
Proof.
  unfold logged, add_log, set_log. simpl. now rewrite <- app_assoc.
Qed.

Lemma logged_app l1 l2 s : logged (l1 ++ l2) s = logged l2 (logged l1 s).
Proof.
  revert s. induction l1 as [|a l1 IH]; intros s; simpl.
  - now rewrite logged_nil.
  - now rewrite !logged_cons, IH.
Qed.

Lemma mem_logged l s : mem (logged l s) = mem s.
Proof. reflexivity. Qed.

Lemma load16_eq a s : load16 a s = Done (mem s a) (logged [a] s).
Proof. reflexivity. Qed.

Lemma slot_addr_bounds k :
  (k <= 1000)%nat -> 0 <= slot_addr k /\ slot_addr k + 6 < 2 ^ 32.
Proof. unfold slot_addr, EEPROM_ADDRESS. lia. Qed.

Lemma add32_small a b : 0 <= a + b < 2 ^ 32 -> add32 a b = a + b.
Proof. intros H. unfold add32. now apply Z.mod_small. Qed.

Lemma add32_slot k d :
  (k <= 1000)%nat -> 0 <= d <= 6 -> add32 (slot_addr k) d = slot_addr k + d.
Proof.
  intros Hk Hd. apply add32_small. pose proof (slot_addr_bounds k Hk). lia.
Qed.

Lemma slot_addr_S k : slot_addr k + 6 = slot_addr (S k).
Proof. unfold slot_addr. lia. Qed.

Lemma slot_addr_0 : EEPROM_ADDRESS + 4 = slot_addr 0.
Proof. reflexivity. Qed.

Lemma scan_S m k n :
  scan m k (S n) = if in_use (slot m k) then slot m k :: scan m (S k) n else [].
Proof. reflexivity. Qed.

Lemma findVar_loop_spec id n : forall k s,
  (k + n <= 1000)%nat ->
  findVar_loop n id (slot_addr k) s
  = Done (option_map (fun i => slot_addr (k + i))
                     (find_index (matches id) (scan (mem s) k n)))
         (logged (scan_loads (mem s) id k n) s).
Proof.
  induction n as [|n IH]; intros k s Hk.
  - simpl. unfold ret. now rewrite logged_nil.
  - cbn [findVar_loop scan_loads]. rewrite scan_S.
    rewrite (bind_done _ _ _ _ _ (load16_eq _ s)).
    unfold in_use at 1 2. cbn [slot e_id].
    destruct (mem s (slot_addr k) =? 65535) eqn:E; cbn [negb].
    + reflexivity.
    + rewrite !add32_slot by lia.
      rewrite (bind_done _ _ _ _ _ (load16_eq _ _)).
      rewrite (bind_done _ _ _ _ _ (load16_eq _ _)).
      rewrite !mem_logged. cbn [find_index].
      change ((Z.land (mem s (slot_addr k)) 255 =? id)
              && (mem s (slot_addr k + 4)
                  =? EEPROM_calcCRC (mem s (slot_addr k)) (mem s (slot_addr k + 2))))
        with (matches id (slot (mem s) k)).
      destruct (matches id (slot (mem s) k)).
      * unfold ret. cbn [option_map]. rewrite Nat.add_0_r.
        now rewrite <- !logged_app.
      * rewrite slot_addr_S, IH by lia. rewrite !mem_logged.
        rewrite <- !logged_app. cbn [app]. f_equal.
        destruct (find_index (matches id) (scan (mem s) (S k) n)); cbn [option_map];
          [now rewrite Nat.add_succ_r|reflexivity].
Qed.

Lemma isInitialized_eq s :
  EEPROM_isInitialized s
  = Done (if initialized (mem s) then 1 else 0) (logged [EEPROM_ADDRESS] s).
Proof. reflexivity. Qed.

Lemma findVar_spec id s :
  EEPROM_findVar id s
  = Done (lookup id (mem s)) (logged (findVar_loads id (mem s)) s).
Proof.
  unfold EEPROM_findVar, lookup, entries, findVar_loads.
  rewrite (bind_done _ _ _ _ _ (isInitialized_eq s)).
  destruct (initialized (mem s)) eqn:E; simpl (_ =? 0).
  - cbv iota. rewrite slot_addr_0, findVar_loop_spec by (unfold MAX_VARS; lia).
    rewrite mem_logged, <- logged_app. reflexivity.
  - reflexivity.
Qed.

Lemma find_index_find {A : Type} (p : A -> bool) (l : list A) :
  find p l = match find_index p l with
             | Some i => nth_error l i
             | None => None
             end.
Proof.
  induction l as [|x l IH]; simpl; [reflexivity|].
  destruct (p x); [reflexivity|].
  rewrite IH. now destruct (find_index p l).
Qed.

Lemma scan_nth m n : forall k i e,
  nth_error (scan m k n) i = Some e -> e = slot m (k + i) /\ (i < n)%nat.
Proof.
  induction n as [|n IH]; intros k i e H.
  - destruct i; discriminate.
  - rewrite scan_S in H. destruct (in_use (slot m k)).
    + destruct i as [|i]; simpl in H.
      * injection H as <-. rewrite Nat.add_0_r. split; [reflexivity|lia].
      * apply IH in H. rewrite Nat.add_succ_r. split; [apply H|lia].
    + destruct i; discriminate.
Qed.

Lemma find_index_lt {A : Type} (p : A -> bool) (l : list A) i :
  find_index p l = Some i -> (i < length l)%nat.
Proof.
  revert i. induction l as [|x l IH]; intros i; simpl; [discriminate|].
  destruct (p x).
  - intros [= <-]. lia.
  - destruct (find_index p l) as [j|]; [|discriminate].
    intros [= <-]. specialize (IH j eq_refl). lia.
Qed.

Lemma readVar_spec id s :
  EEPROM_readVar id s
  = Done (read_value id (mem s)) (logged (readVar_loads id (mem s)) s).
Proof.
  unfold EEPROM_readVar, readVar_loads, read_value.
  rewrite (bind_done _ _ _ _ _ (findVar_spec id s)).
  rewrite logged_app. unfold lookup.
  rewrite find_index_find.
  destruct (find_index (matches id) (entries (mem s))) as [i|] eqn:F;
    cbn [option_map]; [|unfold ret; now rewrite logged_nil].
  pose proof (find_index_lt _ _ _ F) as Hlt.
  destruct (nth_error (entries (mem s)) i) as [e|] eqn:N;
    [|apply nth_error_None in N; lia].
  unfold entries in N. destruct (initialized (mem s)); [|destruct i; discriminate].
  apply scan_nth in N. destruct N as [-> Hi]. unfold MAX_VARS in Hi.
  rewrite add32_slot by lia. rewrite load16_eq. reflexivity.
Qed.

Lemma varExists_spec id s :
  EEPROM_varExists id s
  = Done (match lookup id (mem s) with Some _ => 1 | None => 0 end)
         (logged (findVar_loads id (mem s)) s).
Proof.
  unfold EEPROM_varExists.
  now rewrite (bind_done _ _ _ _ _ (findVar_spec id s)).
Qed.

(** ** The write side *)

Lemma status_neq : EEPROM_ERROR <> EEPROM_OK.
Proof. discriminate. Qed.

(** A guarded call that lets the routine go on has succeeded. *)
Lemma write_step a d (k : M Z) s s' :
  (status <- EEPROM_writeHalfWord a d ;;
   if negb (status =? EEPROM_OK) then ret status else k) s = Done EEPROM_OK s' ->
  exists s1, EEPROM_writeHalfWord a d s = Done EEPROM_OK s1
             /\ write_post a d s EEPROM_OK s1
             /\ k s1 = Done EEPROM_OK s'.
Proof.
  destruct (writeHalfWord_total a d s) as (st & s1 & H & P).
  step H.
  destruct P as ([-> | ->] & P2 & P3); simpl.
  - intros Hk. exists s1. repeat split; auto.
  - unfold ret. intros E. discriminate E.
Qed.

(** A guarded call that fails ends the routine with that failure. *)
Lemma write_abort a d (k : M Z) s st s1 :
  EEPROM_writeHalfWord a d s = Done st s1 -> st <> EEPROM_OK ->
  (status <- EEPROM_writeHalfWord a d ;;
   if negb (status =? EEPROM_OK) then ret status else k) s = Done EEPROM_ERROR s1.
Proof.
  intros H Hst. step H.
  destruct (writeHalfWord_total a d s) as (st' & s1' & H' & P).
  rewrite H in H'. injection H' as <- <-.
  destruct P as ([-> | ->] & _); [contradiction|reflexivity].
Qed.

Lemma write_pass a d (k : M Z) s s1 :
  EEPROM_writeHalfWord a d s = Done EEPROM_OK s1 ->
  (status <- EEPROM_writeHalfWord a d ;;
   if negb (status =? EEPROM_OK) then ret status else k) s = k s1.
Proof. intros H. now step H. Qed.

Lemma write_vars_ok ws : forall k s s',
  (k + length ws <= 1000)%nat ->
  write_vars ws (slot_addr k) s = Done EEPROM_OK s' ->
  (forall x, x < slot_addr k \/ slot_addr (k + length ws) <= x ->
             mem s' x = mem s x)
  /\ (forall i p, nth_error ws i = Some p -> slot (mem s') (k + i) = mk_entry p).
Proof.
  induction ws as [|[id v] ws IH]; intros k s s' Hk H.
  - injection H as <-. split; [reflexivity|]. intros [|i] p; discriminate.
  - cbn [write_vars] in H. cbn [length] in Hk.
    apply write_step in H. destruct H as (s1 & _ & (_ & F1 & V1) & H).
    rewrite add32_slot in H by lia.
    apply write_step in H. destruct H as (s2 & _ & (_ & F2 & V2) & H).
    rewrite add32_slot in H by lia.
    apply write_step in H. destruct H as (s3 & _ & (_ & F3 & V3) & H).
    rewrite add32_slot, slot_addr_S in H by lia.
    apply IH in H; [|lia]. destruct H as [Hout Hin].
    assert (Hlt : slot_addr k + 6 = slot_addr (S k)) by apply slot_addr_S.
    assert (Hmono : slot_addr (S k) <= slot_addr (S k + length ws))
      by (unfold slot_addr; lia).
    split.
    + intros x Hx. cbn [length] in Hx. rewrite Nat.add_succ_r in Hx.
      rewrite Hout by (simpl in Hmono |- *; lia).
      simpl in Hmono.
      rewrite F3, F2, F1 by lia. reflexivity.
    + intros [|i] p Hp; simpl in Hp.
      * injection Hp as <-. rewrite Nat.add_0_r. unfold slot, mk_entry.
        cbn [fst snd].
        rewrite !Hout by lia.
        rewrite (V3 eq_refl).
        rewrite (F3 (slot_addr k + 2)), (V2 eq_refl) by lia.
        rewrite (F3 (slot_addr k)), (F2 (slot_addr k)), (V1 eq_refl) by lia.
        reflexivity.
      * rewrite Nat.add_succ_r. apply (Hin i p Hp).
Qed.

Lemma format_step (k : M Z) s s' :
  (status <- EEPROM_format ;;
   if negb (status =? EEPROM_OK) then ret status else k) s = Done EEPROM_OK s' ->
  exists s1, EEPROM_format s = Done EEPROM_OK s1
             /\ format_post s EEPROM_OK s1
             /\ k s1 = Done EEPROM_OK s'.
Proof.
  destruct (format_total s) as (st & s1 & H & P).
  step H.
  destruct P as ([-> | ->] & P2 & P3); simpl.
  - intros Hk. exists s1. repeat split; auto.
  - unfold ret. intros E. discriminate E.
Qed.

Lemma same_page_region x : in_region x -> same_page x EEPROM_ADDRESS = true.
Proof.
  unfold in_region, same_page, PAGE_SIZE, EEPROM_ADDRESS. intros H.
  apply Z.eqb_eq. change (134233088 / 1024) with 131087.
  symmetry. apply Z.div_unique with (r := x - 134233088); lia.
Qed.

(** A successful erase of a region whose first half-word was programmed has
    cleared the whole page: the read-back could not pass otherwise. *)
Lemma format_ok_erased s s1 :
  format_post s EEPROM_OK s1 -> mem s EEPROM_ADDRESS <> 0xFFFF ->
  forall x, in_region x -> mem s1 x = 0xFFFF.
Proof.
  intros (_ & [Hm | Hm] & Hv) Hne x Hx.
  - specialize (Hv eq_refl). rewrite Hm in Hv. contradiction.
  - rewrite Hm. unfold erase_page. now rewrite same_page_region.
Qed.

Lemma erase_and_mark_ok s s1 :
  erase_and_mark s = Done EEPROM_OK s1 ->
  mem s1 EEPROM_ADDRESS = EEPROM_MARKER
  /\ (mem s EEPROM_ADDRESS <> 0xFFFF ->
      forall x, in_region x -> x <> EEPROM_ADDRESS -> x <> EEPROM_ADDRESS + 2 ->
                mem s1 x = 0xFFFF).
Proof.
  unfold erase_and_mark. intros H.
  apply format_step in H. destruct H as (sa & _ & Pf & H).
  apply write_step in H. destruct H as (sb & _ & (_ & Fb & Vb) & H).
  destruct (writeHalfWord_total (EEPROM_ADDRESS + 2) 0 sb) as (st & sc & Hc & Pc).
  rewrite H in Hc. injection Hc as <- <-. destruct Pc as (_ & Fc & Vc).
  split.
  - rewrite Fc by (unfold EEPROM_ADDRESS; lia). now apply Vb.
  - intros Hne x Hx N1 N2. rewrite Fc, Fb by assumption.
    now apply (format_ok_erased s sa).
Qed.

Lemma slot_in_region k d :
  (k <= 160)%nat -> 0 <= d <= 5 -> in_region (slot_addr k + d).
Proof. unfold in_region, slot_addr, PAGE_SIZE, EEPROM_ADDRESS. lia. Qed.

Lemma rewrite_page_ok ws s s' :
  (length ws <= 160)%nat ->
  mem s EEPROM_ADDRESS <> 0xFFFF ->
  rewrite_page ws s = Done EEPROM_OK s' ->
  mem s' EEPROM_ADDRESS = EEPROM_MARKER
  /\ (forall i p, nth_error ws i = Some p -> slot (mem s') i = mk_entry p)
  /\ (forall k, (length ws <= k <= 160)%nat -> mem s' (slot_addr k) = 0xFFFF).
Proof.
  intros Hlen Hne H. unfold rewrite_page in H.
  apply bind_inv in H. destruct H as (st & s1 & E & H).
  destruct (st =? EEPROM_OK) eqn:Est; cbn [negb] in H;
    [|unfold ret in H; injection H as E1 _; subst st;
      rewrite Z.eqb_refl in Est; discriminate Est].
  apply Z.eqb_eq in Est. subst st.
  apply erase_and_mark_ok in E. destruct E as [Em Ee].
  rewrite slot_addr_0 in H. apply write_vars_ok in H; [|lia].
  destruct H as [Hout Hin]. split; [|split].
  - rewrite Hout; [exact Em|]. left. unfold slot_addr, EEPROM_ADDRESS. lia.
  - exact Hin.
  - intros k Hk. rewrite Hout by (right; unfold slot_addr; cbn [Nat.add]; lia).
    pose proof (slot_in_region k 0 ltac:(lia) ltac:(lia)) as Hr.
    rewrite Z.add_0_r in Hr.
    apply (Ee Hne); [exact Hr| |]; unfold slot_addr, EEPROM_ADDRESS; lia.
Qed.

Lemma scan_of_slots m ws : forall k n,
  (forall i p, nth_error ws i = Some p -> slot m (k + i) = mk_entry p) ->
  Forall (fun p => fst p <> 0xFFFF) ws ->
  (length ws <= n)%nat ->
  ((length ws < n)%nat -> m (slot_addr (k + length ws)) = 0xFFFF) ->
  scan m k n = map mk_entry ws.
Proof.
  induction ws as [|p ws IH]; intros k n Hs Hid Hn He.
  - destruct n as [|n]; [reflexivity|]. rewrite scan_S.
    unfold in_use, slot. cbn [e_id]. simpl in He.
    rewrite Nat.add_0_r in He. rewrite He by lia. reflexivity.
  - destruct n as [|n]; [simpl in Hn; lia|]. rewrite scan_S.
    pose proof (Hs O p eq_refl) as H0. rewrite Nat.add_0_r in H0.
    rewrite H0. inversion Hid as [|? ? Hp Hid']; subst.
    unfold in_use at 1. cbn [mk_entry e_id].
    apply Z.eqb_neq in Hp. rewrite Hp. cbn [negb map]. f_equal.
    apply IH.
    + intros i q Hq. rewrite Nat.add_succ_l, <- Nat.add_succ_r.
      now apply Hs.
    + exact Hid'.
    + simpl in Hn. lia.
    + intros Hlt. rewrite Nat.add_succ_l, <- Nat.add_succ_r.
      apply He. simpl. lia.
Qed.

(** The region after a successful rewrite holds the working set, in order,
    and nothing else. *)
Lemma rewrite_page_entries ws s s' :
  (length ws <= MAX_VARS)%nat ->
  Forall (fun p => fst p <> 0xFFFF) ws ->
  mem s EEPROM_ADDRESS <> 0xFFFF ->
  rewrite_page ws s = Done EEPROM_OK s' ->
  entries (mem s') = map mk_entry ws.
Proof.
  unfold MAX_VARS. intros Hlen Hid Hne H.
  apply rewrite_page_ok in H; [|lia|exact Hne].
  destruct H as (Hm & Hin & He).
  unfold entries, initialized. rewrite Hm, Z.eqb_refl.
  apply scan_of_slots; auto.
  intros Hlt. apply He. simpl. unfold MAX_VARS in Hlt. lia.
Qed.

(** ** The scan and append loops *)

Lemma ws_push_ok ws id v s :
  (length ws < MAX_VARS)%nat -> ws_push ws id v s = Done (ws ++ [(id, v)]) s.
Proof.
  intros H. unfold ws_push. apply Nat.ltb_lt in H. now rewrite H.
Qed.

Lemma ws_push_full ws id v s :
  (MAX_VARS <= length ws)%nat -> ws_push ws id v s = Undefined.
Proof.
  intros H. unfold ws_push. apply Nat.ltb_ge in H. now rewrite H.
Qed.

Lemma saveVar_scan_spec id n : forall k ws s,
  (k + n <= 1000)%nat -> (length ws + n <= MAX_VARS)%nat ->
  exists l, saveVar_scan n id (slot_addr k) ws s
            = Done (ws ++ map pair_of (filter (keep1 id) (scan (mem s) k n)))
                   (logged l s).
Proof.
  induction n as [|n IH]; intros k ws s Hk Hw.
  - exists []. simpl. unfold ret. now rewrite app_nil_r, logged_nil.
  - cbn [saveVar_scan]. rewrite scan_S.
    rewrite (bind_done _ _ _ _ _ (load16_eq _ s)).
    unfold in_use. cbn [slot e_id].
    destruct (mem s (slot_addr k) =? 65535) eqn:E; cbn [negb].
    + exists [slot_addr k]. unfold ret. cbn [filter map]. now rewrite app_nil_r.
    + rewrite !add32_slot by lia.
      rewrite (bind_done _ _ _ _ _ (load16_eq _ _)).
      rewrite (bind_done _ _ _ _ _ (load16_eq _ _)).
      rewrite !mem_logged, <- !logged_app. cbn [app filter].
      rewrite slot_addr_S.
      unfold keep1 at 1. unfold base_id at 1, crc_ok at 1.
      cbn [slot e_id e_value e_check].
      destruct (Z.land (mem s (slot_addr k)) 255 =? id) eqn:Eid; cbn [negb andb].
      * destruct (IH (S k) ws (logged [slot_addr k; slot_addr k + 2; slot_addr k + 4] s))
          as (l & Hl); [lia|lia|].
        rewrite Hl, mem_logged, <- logged_app. eexists. reflexivity.
      * destruct (mem s (slot_addr k + 4)
                  =? EEPROM_calcCRC (mem s (slot_addr k)) (mem s (slot_addr k + 2))).
        -- assert (Hlt : (length ws < MAX_VARS)%nat) by lia.
           rewrite (bind_done _ _ _ _ _ (ws_push_ok _ _ _ _ Hlt)).
           destruct (IH (S k) (ws ++ [(Z.land (mem s (slot_addr k)) 255,
                                       mem s (slot_addr k + 2))])
                        (logged [slot_addr k; slot_addr k + 2; slot_addr k + 4] s))
             as (l & Hl); [lia|rewrite length_app; simpl; lia|].
           rewrite Hl, mem_logged, <- logged_app, <- app_assoc.
           eexists. reflexivity.
        -- unfold ret at 1. unfold bind at 1.
           destruct (IH (S k) ws (logged [slot_addr k; slot_addr k + 2; slot_addr k + 4] s))
             as (l & Hl); [lia|lia|].
           rewrite Hl, mem_logged, <- logged_app. eexists. reflexivity.
Qed.

Lemma skipn_cons_nth {A : Type} (l : list A) j x :
  nth_error l j = Some x -> skipn j l = x :: skipn (S j) l.
Proof.
  revert j. induction l as [|y l IH]; intros [|j] H; try discriminate.
  - now injection H as ->.
  - simpl in H. apply IH in H. exact H.
Qed.

Lemma arr_get_ok (l : list Z) j s :
  (j < length l)%nat ->
  exists x, nth_error l j = Some x /\ arr_get l j s = Done x s.
Proof.
  intros H. unfold arr_get.
  destruct (nth_error l j) as [x|] eqn:E.
  - now exists x.
  - apply nth_error_None in E. lia.
Qed.

Lemma saveVars_skip_spec ids b n : forall j s,
  (j + n <= length ids)%nat ->
  saveVars_skip n j ids b s
  = Done (if listed (firstn n (skipn j ids)) b then 1 else 0) s.
Proof.
  induction n as [|n IH]; intros j s H.
  - reflexivity.
  - cbn [saveVars_skip].
    assert (Hj : (j < length ids)%nat) by lia.
    destruct (arr_get_ok ids j s Hj) as (x & Hx & Hg).
    step Hg.
    rewrite (skipn_cons_nth _ _ _ Hx). cbn [firstn listed existsb].
    destruct (x =? b); [reflexivity|].
    rewrite IH by lia. reflexivity.
Qed.

Lemma saveVars_scan_spec ids count n : forall k ws s,
  (Z.to_nat count <= length ids)%nat ->
  (k + n <= 1000)%nat -> (length ws + n <= MAX_VARS)%nat ->
  exists l, saveVars_scan n ids count (slot_addr k) ws s
            = Done (ws ++ map pair_of
                            (filter (keep2 (new_ids ids count)) (scan (mem s) k n)))
                   (logged l s).
Proof.
  induction n as [|n IH]; intros k ws s Hc Hk Hw.
  - exists []. simpl. unfold ret. now rewrite app_nil_r, logged_nil.
  - cbn [saveVars_scan]. rewrite scan_S.
    rewrite (bind_done _ _ _ _ _ (load16_eq _ s)).
    unfold in_use. cbn [slot e_id].
    destruct (mem s (slot_addr k) =? 65535) eqn:E; cbn [negb].
    + exists [slot_addr k]. unfold ret. cbn [filter map]. now rewrite app_nil_r.
    + rewrite !add32_slot by lia.
      rewrite (bind_done _ _ _ _ _ (load16_eq _ _)).
      rewrite (bind_done _ _ _ _ _ (load16_eq _ _)).
      rewrite !mem_logged, <- !logged_app. cbn [app filter].
      rewrite slot_addr_S.
      unfold keep2 at 1. unfold base_id at 1, crc_ok at 1.
      cbn [slot e_id e_value e_check].
      set (s3 := logged [slot_addr k; slot_addr k + 2; slot_addr k + 4] s).
      destruct (mem s (slot_addr k + 4)
                =? EEPROM_calcCRC (mem s (slot_addr k)) (mem s (slot_addr k + 2)));
        cbn [andb].
      * cbv zeta.
        assert (Hc0 : (0 + Z.to_nat count <= length ids)%nat) by lia.
        rewrite bind_assoc.
        rewrite (bind_done _ _ _ _ _ (saveVars_skip_spec ids _ _ 0%nat s3 Hc0)).
        cbn [skipn]. fold (new_ids ids count).
        destruct (listed (new_ids ids count) (Z.land (mem s (slot_addr k)) 255));
          cbn [negb Z.eqb].
        -- unfold ret at 1. unfold bind at 1.
           destruct (IH (S k) ws s3) as (l & Hl); [lia|lia|lia|].
           rewrite Hl. unfold s3. rewrite mem_logged, <- logged_app.
           eexists. reflexivity.
        -- assert (Hlt : (length ws < MAX_VARS)%nat) by lia.
           rewrite (bind_done _ _ _ _ _ (ws_push_ok _ _ _ _ Hlt)).
           destruct (IH (S k) (ws ++ [(Z.land (mem s (slot_addr k)) 255,
                                       mem s (slot_addr k + 2))]) s3)
             as (l & Hl); [lia|lia|rewrite length_app; simpl; lia|].
           rewrite Hl. unfold s3. rewrite mem_logged, <- logged_app, <- app_assoc.
           eexists. reflexivity.
      * unfold ret at 1. unfold bind at 1.
        destruct (IH (S k) ws s3) as (l & Hl); [lia|lia|lia|].
        rewrite Hl. unfold s3. rewrite mem_logged, <- logged_app.
        eexists. reflexivity.
Qed.

Lemma saveVars_append_spec ids values n : forall j ws s,
  (j + n <= length ids)%nat -> (j + n <= length values)%nat ->
  saveVars_append n j ids values ws s
  = Done (ws ++ firstn (MAX_VARS - length ws)
                       (combine (firstn n (skipn j ids)) (firstn n (skipn j values))))
         s.
Proof.
  induction n as [|n IH]; intros j ws s Hi Hv.
  - simpl. unfold ret. rewrite firstn_nil. now rewrite app_nil_r.
  - cbn [saveVars_append].
    destruct (MAX_VARS <=? length ws)%nat eqn:E.
    + apply Nat.leb_le in E. unfold ret.
      replace (MAX_VARS - length ws)%nat with 0%nat by lia.
      now rewrite app_nil_r.
    + apply Nat.leb_gt in E.
      assert (Hji : (j < length ids)%nat) by lia.
      assert (Hjv : (j < length values)%nat) by lia.
      destruct (arr_get_ok ids j s Hji) as (x & Hx & Hg).
      destruct (arr_get_ok values j s Hjv) as (v & Hxv & Hgv).
      rewrite (bind_done _ _ _ _ _ Hg), (bind_done _ _ _ _ _ Hgv).
      rewrite (bind_done _ _ _ _ _ (ws_push_ok _ _ _ _ E)).
      rewrite IH by lia.
      rewrite (skipn_cons_nth _ _ _ Hx), (skipn_cons_nth _ _ _ Hxv).
      cbn [firstn combine]. rewrite length_app. cbn [length].
      replace (MAX_VARS - length ws)%nat with (S (MAX_VARS - (length ws + 1)))%nat by lia.
      cbn [firstn]. now rewrite <- app_assoc.
Qed.

(** ** What a successful save leaves in the region *)

Lemma land255_range x : 0 <= Z.land x 255 < 256.
Proof.
  change 255 with (Z.ones 8). rewrite Z.land_ones by lia.
  apply Z.mod_pos_bound. lia.
Qed.

Lemma land255_small x : 0 <= x < 256 -> Z.land x 255 = x.
Proof.
  intros H. change 255 with (Z.ones 8). rewrite Z.land_ones by lia.
  apply Z.mod_small. exact H.
Qed.

Lemma scan_length m n : forall k, (length (scan m k n) <= n)%nat.
Proof.
  induction n as [|n IH]; intros k; [simpl; lia|].
  rewrite scan_S. destruct (in_use (slot m k)); simpl; [|lia].
  specialize (IH (S k)). lia.
Qed.

Lemma entries_length m : (length (entries m) <= MAX_VARS)%nat.
Proof.
  unfold entries. destruct (initialized m); [apply scan_length|simpl; lia].
Qed.

Lemma survivors1_ids id m : Forall (fun p => 0 <= fst p < 256) (survivors1 id m).
Proof.
  unfold survivors1. apply Forall_map, Forall_forall. intros e _.
  apply land255_range.
Qed.

Lemma survivors2_ids ids m : Forall (fun p => 0 <= fst p < 256) (survivors2 ids m).
Proof.
  unfold survivors2. apply Forall_map, Forall_forall. intros e _.
  apply land255_range.
Qed.

Lemma ids_not_sentinel (ws : workset) :
  Forall (fun p => 0 <= fst p < 256) ws -> Forall (fun p => fst p <> 0xFFFF) ws.
Proof. apply Forall_impl. intros p H. lia. Qed.

Lemma ws_push_inv ws id v s ws' s' :
  ws_push ws id v s = Done ws' s' ->
  ws' = ws ++ [(id, v)] /\ s' = s /\ (length ws < MAX_VARS)%nat.
Proof.
  unfold ws_push. destruct (length ws <? MAX_VARS)%nat eqn:E; [|discriminate].
  intros [= <- <-]. apply Nat.ltb_lt in E. auto.
Qed.

(** Both save routines start alike: either the region is initialised and is
    scanned, or it is erased and given a header, and the working set starts
    empty. *)
Lemma fresh_header_inv {A : Type} (k : workset -> M (Z + A)) s ws s' :
  (r <- (status <- erase_and_mark ;;
         if negb (status =? EEPROM_OK) then ret (inl status) else ret (inr [])) ;;
   match r with
   | inl status => ret (inl status)
   | inr ws => k ws
   end) s = Done (inr ws) s' ->
  exists s1, erase_and_mark s = Done EEPROM_OK s1 /\ k [] s1 = Done (inr ws) s'.
Proof.
  intros H. rewrite bind_assoc in H. apply bind_inv in H.
  destruct H as (st & s1 & E & H).
  destruct (st =? EEPROM_OK) eqn:Est; cbn [negb] in H.
  - apply Z.eqb_eq in Est. subst st. exists s1. split; [exact E|exact H].
  - unfold ret, bind in H. discriminate H.
Qed.

Lemma marker_not_erased : EEPROM_MARKER <> 0xFFFF.
Proof. discriminate. Qed.

(** The working set [EEPROM_saveVar] hands to the rewrite. *)
Lemma saveVar_collect_spec id value s ws s0 :
  saveVar_collect id value s = Done (inr ws) s0 ->
  ws = survivors1 id (mem s) ++ [(id, value)]
  /\ (length ws <= MAX_VARS)%nat
  /\ mem s0 EEPROM_ADDRESS = EEPROM_MARKER.
Proof.
  intros H. unfold saveVar_collect in H.
  rewrite (bind_done _ _ _ _ _ (isInitialized_eq s)) in H.
  unfold survivors1, entries.
  destruct (initialized (mem s)) eqn:E.
  - change (1 =? 0) with false in H. cbv iota in H.
    rewrite bind_assoc in H. rewrite slot_addr_0 in H.
    destruct (saveVar_scan_spec id MAX_VARS 0 [] (logged [EEPROM_ADDRESS] s))
      as (l & Hl); [unfold MAX_VARS; lia|simpl; lia|].
    rewrite (bind_done _ _ _ _ _ Hl) in H.
    unfold ret at 1 in H. unfold bind at 1 in H. cbv iota in H.
    apply bind_inv in H. destruct H as (ws' & s2 & Hp & H).
    apply ws_push_inv in Hp. destruct Hp as (-> & -> & Hlen).
    unfold ret in H. injection H as <- <-.
    rewrite mem_logged in *. cbn [app] in *.
    split; [reflexivity|]. split.
    + rewrite length_app. simpl. lia.
    + unfold initialized in E. now apply Z.eqb_eq in E.
  - change (0 =? 0) with true in H. cbv iota in H.
    apply fresh_header_inv in H. destruct H as (s1 & Em & H).
    apply bind_inv in H. destruct H as (ws' & s2 & Hp & H).
    apply ws_push_inv in Hp. destruct Hp as (-> & -> & Hlen).
    unfold ret in H. injection H as <- <-.
    apply erase_and_mark_ok in Em. destruct Em as [Em _].
    split; [reflexivity|]. split; [simpl; unfold MAX_VARS; lia|exact Em].
Qed.

(** A save that returns [EEPROM_OK] went through collect and rewrite. *)
Lemma save_ok_inv (c : M (Z + workset)) s s' :
  (r <- c ;;
   match r with
   | inl status => ret status
   | inr ws => rewrite_page ws
   end) s = Done EEPROM_OK s' ->
  (exists s0, c s = Done (inl EEPROM_OK) s0)
  \/ (exists ws s0, c s = Done (inr ws) s0 /\ rewrite_page ws s0 = Done EEPROM_OK s').
Proof.
  intros H. apply bind_inv in H. destruct H as ([st | ws] & s0 & Hc & H).
  - left. unfold ret in H. injection H as -> _. now exists s0.
  - right. now exists ws, s0.
Qed.

(** The early returns of the collect phase never carry [EEPROM_OK]. *)
Lemma collect_early_status {A : Type} (c : M workset) (k : workset -> M (Z + A))
    init st s s' :
  (forall ws s1 s2, k ws s1 <> Done (inl st) s2) ->
  (r <- (if init =? 0 then
           status <- erase_and_mark ;;
           if negb (status =? EEPROM_OK) then ret (inl status) else ret (inr [])
         else ws <- c ;; ret (inr ws)) ;;
   match r with
   | inl status => ret (inl status)
   | inr ws => k ws
   end) s = Done (inl st) s' ->
  st <> EEPROM_OK.
Proof.
  intros Hk H. apply bind_inv in H. destruct H as ([st0 | ws] & s1 & Hc & H).
  - unfold ret in H. injection H as -> _.
    destruct (init =? 0).
    + apply bind_inv in Hc. destruct Hc as (st1 & s2 & _ & Hc).
      destruct (st1 =? EEPROM_OK) eqn:E; cbn [negb] in Hc; unfold ret in Hc;
        [discriminate Hc|].
      injection Hc as <- _. now apply Z.eqb_neq.
    + apply bind_inv in Hc. destruct Hc as (ws & s2 & _ & Hc). discriminate Hc.
  - exfalso. now apply (Hk ws s1 s').
Qed.

Lemma saveVar_collect_early id value s st s' :
  saveVar_collect id value s = Done (inl st) s' -> st <> EEPROM_OK.
Proof.
  intros H. unfold saveVar_collect in H.
  rewrite (bind_done _ _ _ _ _ (isInitialized_eq s)) in H.
  revert H. apply collect_early_status.
  intros ws s1 s2 Hk. apply bind_inv in Hk.
  destruct Hk as (? & ? & _ & Hk). discriminate Hk.
Qed.

Lemma saveVar_entries id value s s' :
  0 <= id < 256 ->
  EEPROM_saveVar id value s = Done EEPROM_OK s' ->
  entries (mem s') = map mk_entry (survivors1 id (mem s) ++ [(id, value)]).
Proof.
  intros Hid H. unfold EEPROM_saveVar in H. apply save_ok_inv in H.
  destruct H as [(s0 & H) | (ws & s0 & Hc & H)].
  - now apply saveVar_collect_early in H.
  - apply saveVar_collect_spec in Hc. destruct Hc as (-> & Hlen & Hm).
    apply rewrite_page_entries in H; [exact H|exact Hlen| |].
    + apply ids_not_sentinel, Forall_app. split.
      * apply survivors1_ids.
      * constructor; [exact Hid|constructor].
    + rewrite Hm. apply marker_not_erased.
Qed.

Lemma survivors2_length ids m : (length (survivors2 ids m) <= MAX_VARS)%nat.
Proof.
  unfold survivors2. rewrite length_map.
  pose proof (filter_length_le (keep2 ids) (entries m)).
  pose proof (entries_length m). lia.
Qed.

Lemma saveVars_set_length ids values count m :
  (length (saveVars_set ids values count m) <= MAX_VARS)%nat.
Proof.
  unfold saveVars_set. rewrite length_app, length_firstn.
  pose proof (survivors2_length (new_ids ids count) m). lia.
Qed.

Lemma In_firstn {A : Type} (n : nat) (l : list A) x :
  In x (firstn n l) -> In x l.
Proof.
  intros H. rewrite <- (firstn_skipn n l). apply in_or_app. now left.
Qed.

Lemma new_pairs_ids ids values count :
  Forall (fun x => 0 <= x < 256) (new_ids ids count) ->
  forall n, Forall (fun p => 0 <= fst p < 256)
                   (firstn n (new_pairs ids values count)).
Proof.
  intros H n. apply Forall_forall. intros [x v] Hin.
  apply In_firstn in Hin. unfold new_pairs in Hin. apply in_combine_l in Hin.
  rewrite Forall_forall in H. apply (H x Hin).
Qed.

Lemma saveVars_collect_spec ids values count s ws s0 :
  (Z.to_nat count <= length ids)%nat ->
  (Z.to_nat count <= length values)%nat ->
  saveVars_collect ids values count s = Done (inr ws) s0 ->
  ws = saveVars_set ids values count (mem s)
  /\ mem s0 EEPROM_ADDRESS = EEPROM_MARKER.
Proof.
  intros Hci Hcv H. unfold saveVars_collect in H.
  rewrite (bind_done _ _ _ _ _ (isInitialized_eq s)) in H.
  unfold saveVars_set, survivors2, new_pairs, entries.
  destruct (initialized (mem s)) eqn:E.
  - change (1 =? 0) with false in H. cbv iota in H.
    rewrite bind_assoc in H. rewrite slot_addr_0 in H.
    destruct (saveVars_scan_spec ids count MAX_VARS 0 [] (logged [EEPROM_ADDRESS] s))
      as (l & Hl); [exact Hci|unfold MAX_VARS; lia|simpl; lia|].
    rewrite (bind_done _ _ _ _ _ Hl) in H.
    unfold ret at 1 in H. unfold bind at 1 in H. cbv iota in H.
    rewrite (bind_done _ _ _ _ _
               (saveVars_append_spec ids values _ 0%nat _ _ Hci Hcv)) in H.
    rewrite mem_logged in H. cbn [app skipn] in H.
    unfold ret in H. injection H as <- <-.
    split; [reflexivity|]. rewrite !mem_logged.
    unfold initialized in E. now apply Z.eqb_eq in E.
  - change (0 =? 0) with true in H. cbv iota in H.
    apply fresh_header_inv in H. destruct H as (s1 & Em & H).
    rewrite (bind_done _ _ _ _ _
               (saveVars_append_spec ids values _ 0%nat _ _ Hci Hcv)) in H.
    apply erase_and_mark_ok in Em. destruct Em as [Em _].
    cbn [app skipn length] in H.
    unfold ret in H. injection H as <- <-.
    split; [reflexivity|exact Em].
Qed.

Lemma saveVars_collect_early ids values count s st s' :
  saveVars_collect ids values count s = Done (inl st) s' -> st <> EEPROM_OK.
Proof.
  intros H. unfold saveVars_collect in H.
  rewrite (bind_done _ _ _ _ _ (isInitialized_eq s)) in H.
  revert H. apply collect_early_status.
  intros ws s1 s2 Hk. apply bind_inv in Hk.
  destruct Hk as (? & ? & _ & Hk). discriminate Hk.
Qed.

Lemma saveVars_entries ids values count s s' :
  (Z.to_nat count <= length ids)%nat ->
  (Z.to_nat count <= length values)%nat ->
  Forall (fun x => 0 <= x < 256) (new_ids ids count) ->
  EEPROM_saveVars ids values count s = Done EEPROM_OK s' ->
  entries (mem s') = map mk_entry (saveVars_set ids values count (mem s)).
Proof.
  intros Hci Hcv Hid H. unfold EEPROM_saveVars in H. apply save_ok_inv in H.
  destruct H as [(s0 & H) | (ws & s0 & Hc & H)].
  - now apply saveVars_collect_early in H.
  - apply saveVars_collect_spec in Hc; [|exact Hci|exact Hcv].
    destruct Hc as (-> & Hm).
    apply rewrite_page_entries in H; [exact H| | |].
    + apply saveVars_set_length.
    + apply ids_not_sentinel, Forall_app. split.
      * apply survivors2_ids.
      * now apply new_pairs_ids.
    + rewrite Hm. apply marker_not_erased.
Qed.

(** ** Records written by a save, as the readers see them *)

Lemma crc_ok_mk p : crc_ok (mk_entry p) = true.
Proof. unfold crc_ok, mk_entry. cbn [e_id e_value e_check]. apply Z.eqb_refl. Qed.

Lemma base_id_mk p : 0 <= fst p < 256 -> base_id (mk_entry p) = fst p.
Proof. intros H. unfold base_id, mk_entry. cbn [e_id]. now apply land255_small. Qed.

Lemma pair_of_mk p : 0 <= fst p < 256 -> pair_of (mk_entry p) = p.
Proof.
  intros H. unfold pair_of. rewrite base_id_mk by exact H.
  now destruct p.
Qed.

Lemma matches_mk id p :
  0 <= fst p < 256 -> matches id (mk_entry p) = (fst p =? id).
Proof.
  intros H. unfold matches. rewrite base_id_mk, crc_ok_mk by exact H.
  apply andb_true_r.
Qed.

Lemma find_skip {A : Type} (p : A -> bool) (l1 l2 : list A) :
  Forall (fun x => p x = false) l1 -> find p (l1 ++ l2) = find p l2.
Proof.
  induction 1 as [|x l1 Hx _ IH]; simpl; [reflexivity|]. now rewrite Hx.
Qed.

Lemma survivors1_other id m :
  Forall (fun p => (fst p =? id) = false) (survivors1 id m).
Proof.
  unfold survivors1. apply Forall_map, Forall_forall. intros e He.
  apply filter_In in He. destruct He as [_ He]. unfold keep1 in He.
  apply andb_true_iff in He. destruct He as [He _].
  cbn [pair_of fst]. now apply negb_true_iff in He.
Qed.

Lemma read_value_uninit id m : initialized m = false -> read_value id m = 0xFFFF.
Proof. intros H. unfold read_value, entries. now rewrite H. Qed.

Lemma lookup_uninit id m : initialized m = false -> lookup id m = None.
Proof. intros H. unfold lookup, entries. now rewrite H. Qed.

(** ** Theorems *)



(** C7. After a successful [EEPROM_format] the first half-word of the region
    reads as the erased pattern 0xFFFF (the call succeeds only then), so the
    region reports uninitialised, and for every id [EEPROM_readVar] returns
    0xFFFF and [EEPROM_varExists] returns 0. *)
Theorem format_leaves_uninitialized (s s' : Flash) :
  EEPROM_format s = Done EEPROM_OK s' ->
  mem s' EEPROM_ADDRESS = 0xFFFF
  /\ value_of (EEPROM_isInitialized s') = Some 0
  /\ forall id, value_of (EEPROM_readVar id s') = Some 0xFFFF
                /\ value_of (EEPROM_varExists id s') = Some 0.
Proof.
  intros H. destruct (format_total s) as (st & s1 & H1 & (_ & _ & Hv)).
  rewrite H in H1. injection H1 as <- <-. specialize (Hv eq_refl).
  assert (Hi : initialized (mem s') = false)
    by (unfold initialized; now rewrite Hv).
  split; [exact Hv|]. split.
  - rewrite isInitialized_eq. cbn [value_of]. now rewrite Hi.
  - intros id. rewrite readVar_spec, varExists_spec. cbn [value_of].
    now rewrite read_value_uninit, lookup_uninit.
Qed.

Lemma format_leaves_uninitialized_witness :
  mem (after EEPROM_format blank) EEPROM_ADDRESS = 0xFFFF
  /\ value_of (EEPROM_isInitialized (after EEPROM_format blank)) = Some 0
  /\ forall id,
       value_of (EEPROM_readVar id (after EEPROM_format blank)) = Some 0xFFFF
       /\ value_of (EEPROM_varExists id (after EEPROM_format blank)) = Some 0.
Proof.
  apply (format_leaves_uninitialized blank (after EEPROM_format blank)).
  vm_compute. reflexivity.
Defined.

(** C9. After a successful [EEPROM_saveVar] or [EEPROM_saveVars] the Id
    half-word of every entry of the region is below 0x100, hence never the
    end-of-data sentinel 0xFFFF. *)
Theorem saved_ids_below_0x100 :
  (forall id value s s',
      0 <= id < 256 ->
      EEPROM_saveVar id value s = Done EEPROM_OK s' ->
      Forall (fun e => 0 <= e_id e < 0x100 /\ e_id e <> 0xFFFF) (entries (mem s')))
  /\ (forall ids values count s s',
         (Z.to_nat count <= length ids)%nat ->
         (Z.to_nat count <= length values)%nat ->
         Forall (fun x => 0 <= x < 256) (new_ids ids count) ->
         EEPROM_saveVars ids values count s = Done EEPROM_OK s' ->
         Forall (fun e => 0 <= e_id e < 0x100 /\ e_id e <> 0xFFFF) (entries (mem s'))).
Proof.
  assert (Hmk : forall ws, Forall (fun p => 0 <= fst p < 256) ws ->
                Forall (fun e => 0 <= e_id e < 0x100 /\ e_id e <> 0xFFFF)
                       (map mk_entry ws)).
  { intros ws Hws. apply Forall_map. revert Hws. apply Forall_impl.
    intros p Hp. cbn [mk_entry e_id]. lia. }
  split.
  - intros id value s s' Hid H. rewrite (saveVar_entries _ _ _ _ Hid H).
    apply Hmk, Forall_app. split; [apply survivors1_ids|].
    constructor; [exact Hid|constructor].
  - intros ids values count s s' Hci Hcv Hid H.
    rewrite (saveVars_entries _ _ _ _ _ Hci Hcv Hid H).
    apply Hmk, Forall_app. split; [apply survivors2_ids|].
    now apply new_pairs_ids.
Qed.

Lemma saved_ids_below_0x100_witness :
  Forall (fun e => 0 <= e_id e < 0x100 /\ e_id e <> 0xFFFF)
         (entries (mem (after (EEPROM_saveVars [1; 2; 3] [10; 20; 30] 3) blank))).
Proof.
  apply (proj2 saved_ids_below_0x100 [1; 2; 3] [10; 20; 30] 3 blank
           (after (EEPROM_saveVars [1; 2; 3] [10; 20; 30] 3) blank)).
  - simpl. lia.
  - simpl. lia.
  - repeat constructor; lia.
  - vm_compute. reflexivity.
Defined.

(** C10. [EEPROM_findVar], [EEPROM_readVar], [EEPROM_varExists] and
    [EEPROM_isInitialized] return for every id and every state, and leave
    the region as it was: they only load from the array. *)
Theorem readers_leave_region (id : Z) (s : Flash) :
  (exists r s', EEPROM_findVar id s = Done r s'
                /\ read_only s s' /\ mem s' = mem s)
  /\ (exists r s', EEPROM_readVar id s = Done r s'
                   /\ read_only s s' /\ mem s' = mem s)
  /\ (exists r s', EEPROM_varExists id s = Done r s'
                   /\ read_only s s' /\ mem s' = mem s)
  /\ (exists r s', EEPROM_isInitialized s = Done r s'
                   /\ read_only s s' /\ mem s' = mem s).
Proof.
  repeat split.
  - rewrite findVar_spec. eexists _, _. split; [reflexivity|].
    split; [eexists; reflexivity|reflexivity].
  - rewrite readVar_spec. eexists _, _. split; [reflexivity|].
    split; [eexists; reflexivity|reflexivity].
  - rewrite varExists_spec. eexists _, _. split; [reflexivity|].
    split; [eexists; reflexivity|reflexivity].
  - rewrite isInitialized_eq. eexists _, _. split; [reflexivity|].
    split; [eexists; reflexivity|reflexivity].
Qed.

Lemma scan_loads_range m id n : forall k,
  Forall (fun a => slot_addr k <= a < slot_addr (k + n)) (scan_loads m id k n).
Proof.
  induction n as [|n IH]; intros k; [constructor|].
  cbn [scan_loads].
  assert (H6 : slot_addr (k + S n) = slot_addr k + 6 + 6 * Z.of_nat n)
    by (unfold slot_addr; lia).
  destruct (in_use (slot m k)).
  - repeat (constructor; [lia|]).
    destruct (matches id (slot m k)); [constructor|].
    specialize (IH (S k)). revert IH. apply Forall_impl.
    intros a. unfold slot_addr in *. lia.
  - repeat constructor; lia.
Qed.

(** C4. [EEPROM_findVar] computes the lookup of the specification.  Without
    the marker it returns not-found after loading the marker half-word
    alone.  With it, the result is the address of the first entry, among the
    first ten slots taken in order up to the first erased Id half-word,
    whose Id has the requested low byte and whose Check is the exclusive-or
    of Id and Value, and not-found when there is none; every load of the
    scan lies in those ten slots. *)
Theorem findVar_refines_lookup (id : Z) (s : Flash) :
  EEPROM_findVar id s
  = Done (if initialized (mem s)
          then option_map slot_addr
                 (find_index (matches id)
                    (take_while in_use (map (slot (mem s)) (seq 0 MAX_VARS))))
          else None)
         (logged (findVar_loads id (mem s)) s)
  /\ (initialized (mem s) = false -> findVar_loads id (mem s) = [EEPROM_ADDRESS])
  /\ Forall (fun a => EEPROM_ADDRESS <= a < slot_addr MAX_VARS)
            (findVar_loads id (mem s)).
Proof.
  split; [|split].
  - rewrite findVar_spec. unfold lookup, entries, scan.
    now destruct (initialized (mem s)).
  - intros H. unfold findVar_loads. now rewrite H.
  - unfold findVar_loads. constructor; [unfold slot_addr, MAX_VARS; lia|].
    destruct (initialized (mem s)); [|constructor].
    pose proof (scan_loads_range (mem s) id MAX_VARS 0) as H.
    revert H. apply Forall_impl. intros a. cbn [Nat.add].
    unfold slot_addr, MAX_VARS. lia.
Qed.

Lemma findVar_refines_lookup_witness :
  findVar_loads 3 (mem blank) = [EEPROM_ADDRESS].
Proof.
  apply (proj1 (proj2 (findVar_refines_lookup 3 blank))). reflexivity.
Defined.

(** ** Live entries and their identifiers *)












(** ** Entries with a bad Check *)

Lemma find_matches_live id l :
  find (matches id) l = find (fun e => base_id e =? id) (filter crc_ok l).
Proof.
  induction l as [|e l IH]; [reflexivity|]. cbn [find filter]. unfold matches at 1.
  destruct (crc_ok e); cbn [find].
  - rewrite andb_true_r. now rewrite IH.
  - rewrite andb_false_r. exact IH.
Qed.

Lemma existsb_matches_live id l :
  existsb (matches id) l = existsb (fun e => base_id e =? id) (filter crc_ok l).
Proof.
  induction l as [|e l IH]; [reflexivity|]. cbn [existsb filter]. unfold matches at 1.
  destruct (crc_ok e); cbn [existsb].
  - rewrite andb_true_r. now rewrite IH.
  - rewrite andb_false_r. exact IH.
Qed.

Lemma find_index_existsb {A : Type} (p : A -> bool) l :
  existsb p l = match find_index p l with Some _ => true | None => false end.
Proof.
  induction l as [|x l IH]; [reflexivity|]. cbn [existsb find_index].
  destruct (p x); [reflexivity|]. cbn [orb]. rewrite IH.
  now destruct (find_index p l).
Qed.

Lemma filter_filter_and {A : Type} (p q : A -> bool) l :
  filter p (filter q l) = filter (fun x => q x && p x) l.
Proof.
  induction l as [|x l IH]; [reflexivity|]. cbn [filter].
  destruct (q x); cbn [filter andb]; now rewrite IH.
Qed.

Lemma survivors1_live id m :
  survivors1 id m
  = map pair_of (filter (fun e => negb (base_id e =? id)) (live m)).
Proof.
  unfold survivors1, live. rewrite filter_filter_and. f_equal.
  apply filter_ext. intros e. unfold keep1. apply andb_comm.
Qed.

Lemma survivors2_live ids m :
  survivors2 ids m
  = map pair_of (filter (fun e => negb (listed ids (base_id e))) (live m)).
Proof.
  unfold survivors2, live. now rewrite filter_filter_and.
Qed.

Lemma lookup_sound id m a :
  lookup id m = Some a ->
  exists k, a = slot_addr k /\ (k < MAX_VARS)%nat
            /\ crc_ok (slot m k) = true /\ base_id (slot m k) = id.
Proof.
  unfold lookup. destruct (find_index (matches id) (entries m)) as [i|] eqn:F;
    [|discriminate]. cbn [option_map]. intros [= <-].
  pose proof (find_index_find (matches id) (entries m)) as Hf. rewrite F in Hf.
  pose proof (find_index_lt _ _ _ F) as Hlt.
  destruct (nth_error (entries m) i) as [e|] eqn:N;
    [|apply nth_error_None in N; lia].
  apply find_some in Hf. destruct Hf as [_ Hm].
  unfold entries in N. destruct (initialized m); [|destruct i; discriminate].
  apply scan_nth in N. destruct N as [-> Hi]. cbn [Nat.add] in Hm.
  unfold matches in Hm. apply andb_true_iff in Hm. destruct Hm as [Hb Hc].
  exists i. repeat split; auto. now apply Z.eqb_eq.
Qed.

Lemma lookup_exists id m :
  match lookup id m with Some _ => true | None => false end
  = existsb (fun e => base_id e =? id) (live m).
Proof.
  unfold lookup, live. rewrite <- existsb_matches_live, find_index_existsb.
  now destruct (find_index (matches id) (entries m)).
Qed.

(** C6. An entry whose Check is not the exclusive-or of its Id and Value is
    invisible.  Whatever the id, [EEPROM_readVar] and [EEPROM_varExists]
    answer from the live entries alone, and [EEPROM_findVar] never returns
    the address of an entry with a bad Check.  After a successful save the
    region holds exactly the live entries that are not superseded, in
    order, followed by the new pairs ([EEPROM_saveVars]: as far as the ten
    slots reach), so the bad entries are gone and the others are kept. *)
Theorem corrupt_entries_invisible :
  (forall id s,
      value_of (EEPROM_readVar id s)
      = Some (match find (fun e => base_id e =? id) (live (mem s)) with
              | Some e => e_value e
              | None => 0xFFFF
              end)
      /\ value_of (EEPROM_varExists id s)
         = Some (if existsb (fun e => base_id e =? id) (live (mem s))
                 then 1 else 0)
      /\ (forall a, value_of (EEPROM_findVar id s) = Some (Some a) ->
                    exists k, a = slot_addr k /\ (k < MAX_VARS)%nat
                              /\ crc_ok (slot (mem s) k) = true
                              /\ base_id (slot (mem s) k) = id))
  /\ (forall id value s s',
         0 <= id < 256 ->
         EEPROM_saveVar id value s = Done EEPROM_OK s' ->
         entries (mem s')
         = map mk_entry
             (map pair_of (filter (fun e => negb (base_id e =? id)) (live (mem s)))
              ++ [(id, value)])
         /\ live (mem s') = entries (mem s'))
  /\ (forall ids values count s s',
         (Z.to_nat count <= length ids)%nat ->
         (Z.to_nat count <= length values)%nat ->
         Forall (fun x => 0 <= x < 256) (new_ids ids count) ->
         EEPROM_saveVars ids values count s = Done EEPROM_OK s' ->
         let kept :=
           map pair_of
               (filter (fun e => negb (listed (new_ids ids count) (base_id e)))
                       (live (mem s))) in
         entries (mem s')
         = map mk_entry
             (kept ++ firstn (MAX_VARS - length kept) (new_pairs ids values count))
         /\ live (mem s') = entries (mem s')).
Proof.
  assert (Hlive : forall ws, filter crc_ok (map mk_entry ws) = map mk_entry ws).
  { intros ws. apply forallb_filter_id, forallb_forall. intros e He.
    apply in_map_iff in He. destruct He as (p & <- & _). apply crc_ok_mk. }
  split; [|split].
  - intros id s. split; [|split].
    + rewrite readVar_spec. cbn [value_of]. unfold read_value, live.
      now rewrite find_matches_live.
    + rewrite varExists_spec. cbn [value_of]. rewrite <- lookup_exists.
      now destruct (lookup id (mem s)).
    + intros a. rewrite findVar_spec. cbn [value_of]. intros [= H].
      now apply lookup_sound.
  - intros id value s s' Hid H.
    pose proof (saveVar_entries _ _ _ _ Hid H) as He.
    rewrite survivors1_live in He. split; [exact He|].
    unfold live. rewrite He. apply Hlive.
  - intros ids values count s s' Hci Hcv Hid H kept.
    pose proof (saveVars_entries _ _ _ _ _ Hci Hcv Hid H) as He.
    unfold saveVars_set in He. rewrite survivors2_live in He.
    split; [exact He|]. unfold live. rewrite He. apply Hlive.
Qed.

Lemma corrupt_entries_invisible_witness :
  entries (mem (after (EEPROM_saveVar 3 30) corrupted))
  = map mk_entry
      (map pair_of (filter (fun e => negb (base_id e =? 3)) (live (mem corrupted)))
       ++ [(3, 30)])
  /\ live (mem (after (EEPROM_saveVar 3 30) corrupted))
     = entries (mem (after (EEPROM_saveVar 3 30) corrupted)).
Proof.
  apply (proj1 (proj2 corrupt_entries_invisible) 3 30 corrupted
           (after (EEPROM_saveVar 3 30) corrupted)); [lia|].
  vm_compute. reflexivity.
Defined.

(** ** Reading and scanning a region written from a working set *)

Lemma find_matches_mk id (ws : workset) :
  Forall (fun p => 0 <= fst p < 256) ws ->
  find (matches id) (map mk_entry ws)
  = option_map mk_entry (find (fun p => fst p =? id) ws).
Proof.
  induction 1 as [|p ws Hp _ IH]; [reflexivity|].
  cbn [map find]. rewrite matches_mk by exact Hp.
  destruct (fst p =? id); [reflexivity|exact IH].
Qed.

Lemma read_value_mk id m (ws : workset) :
  entries m = map mk_entry ws ->
  Forall (fun p => 0 <= fst p < 256) ws ->
  read_value id m = match find (fun p => fst p =? id) ws with
                    | Some p => snd p
                    | None => 0xFFFF
                    end.
Proof.
  intros He Hr. unfold read_value. rewrite He, find_matches_mk by exact Hr.
  now destruct (find (fun p => fst p =? id) ws).
Qed.

Lemma survivors2_mk ids m (ws : workset) :
  entries m = map mk_entry ws ->
  Forall (fun p => 0 <= fst p < 256) ws ->
  survivors2 ids m = filter (fun p => negb (listed ids (fst p))) ws.
Proof.
  intros He Hr. unfold survivors2. rewrite He. clear He.
  induction Hr as [|p ws Hp _ IH]; [reflexivity|].
  cbn [map filter]. unfold keep2 at 1.
  rewrite crc_ok_mk, base_id_mk by exact Hp. cbn [andb].
  destruct (listed ids (fst p)); cbn [negb map].
  - exact IH.
  - now rewrite pair_of_mk, IH.
Qed.

Lemma survivors2_unlisted ids m :
  Forall (fun p => listed ids (fst p) = false) (survivors2 ids m).
Proof.
  unfold survivors2. apply Forall_map, Forall_forall. intros e He.
  apply filter_In in He. destruct He as [_ He]. unfold keep2 in He.
  apply andb_true_iff in He. destruct He as [_ He].
  cbn [pair_of fst]. now apply negb_true_iff in He.
Qed.

Lemma filter_all {A : Type} (p : A -> bool) l :
  Forall (fun x => p x = true) l -> filter p l = l.
Proof.
  induction 1 as [|x l Hx _ IH]; [reflexivity|].
  cbn [filter]. now rewrite Hx, IH.
Qed.

(** The claim C3 fails as it stands: of eleven new pairs given to an empty
    region only ten are appended, and the eleventh id reads as not found. *)
Lemma saveVars_truncates_counterexample :
  let ids := [0; 1; 2; 3; 4; 5; 6; 7; 8; 9; 10] in
  let values := [100; 101; 102; 103; 104; 105; 106; 107; 108; 109; 110] in
  EEPROM_saveVars ids values 11 blank
  = Done EEPROM_OK (after (EEPROM_saveVars ids values 11) blank)
  /\ length (entries (mem (after (EEPROM_saveVars ids values 11) blank))) = 10%nat
  /\ value_of (EEPROM_readVar 10 (after (EEPROM_saveVars ids values 11) blank))
     = Some 0xFFFF.
Proof.
  cbv zeta. split; [vm_compute; reflexivity|].
  split; vm_compute; reflexivity.
Qed.

(** C3, amended.  [EEPROM_saveVars] supersedes every id of the list in one
    pass: of the entries of the region it keeps those whose Check fits and
    whose low byte of Id is not among [ids[0..count)], and it appends the
    new pairs in order while fewer than ten pairs are held -- all [count] of
    them when the kept entries leave that much room.  From a region where at
    most seven live entries have ids other than 1, 2, 3 (an erased one, for
    instance), saveVars([1,2,3],[10,20,30],3) then saveVars([2],[99],1)
    leave readVar(1)=10, readVar(2)=99, readVar(3)=30. *)
Theorem saveVars_supersedes_listed_ids :
  (forall ids values count s s',
      (Z.to_nat count <= length ids)%nat ->
      (Z.to_nat count <= length values)%nat ->
      Forall (fun x => 0 <= x < 256) (new_ids ids count) ->
      EEPROM_saveVars ids values count s = Done EEPROM_OK s' ->
      let kept :=
        map pair_of
            (filter (fun e => crc_ok e
                              && negb (listed (new_ids ids count) (base_id e)))
                    (entries (mem s))) in
      entries (mem s')
      = map mk_entry
          (kept ++ firstn (MAX_VARS - length kept) (new_pairs ids values count))
      /\ ((length kept + Z.to_nat count <= MAX_VARS)%nat ->
          entries (mem s') = map mk_entry (kept ++ new_pairs ids values count)))
  /\ (forall s s1 s2,
         (length (survivors2 [1; 2; 3]%Z (mem s)) <= 7)%nat ->
         EEPROM_saveVars [1; 2; 3] [10; 20; 30] 3 s = Done EEPROM_OK s1 ->
         EEPROM_saveVars [2] [99] 1 s1 = Done EEPROM_OK s2 ->
         value_of (EEPROM_readVar 1 s2) = Some 10
         /\ value_of (EEPROM_readVar 2 s2) = Some 99
         /\ value_of (EEPROM_readVar 3 s2) = Some 30).
Proof.
  split.
  - intros ids values count s s' Hci Hcv Hid H kept.
    pose proof (saveVars_entries _ _ _ _ _ Hci Hcv Hid H) as He.
    split; [exact He|]. intros Hroom. rewrite He. unfold saveVars_set.
    fold kept. change (survivors2 (new_ids ids count) (mem s)) with kept.
    rewrite firstn_all2; [reflexivity|].
    unfold new_pairs. rewrite length_combine, !firstn_length_le by assumption.
    lia.
  - intros s s1 s2 Hroom H1 H2.
    set (K := survivors2 [1; 2; 3] (mem s)) in *.
    assert (Hr3 : Forall (fun x => 0 <= x < 256) (new_ids [1; 2; 3] 3))
      by (repeat constructor; lia).
    assert (Hr1 : Forall (fun x => 0 <= x < 256) (new_ids [2] 1))
      by (repeat constructor; lia).
    pose proof (saveVars_entries [1; 2; 3] [10; 20; 30] 3 s s1
                  ltac:(simpl; lia) ltac:(simpl; lia) Hr3 H1) as E1.
    unfold saveVars_set in E1.
    change (survivors2 (new_ids [1; 2; 3] 3) (mem s)) with K in E1.
    change (new_pairs [1; 2; 3] [10; 20; 30] 3)
      with [(1, 10); (2, 20); (3, 30)] in E1.
    rewrite firstn_all2 in E1 by (unfold MAX_VARS; cbn [length]; lia).
    assert (HK : Forall (fun p => 0 <= fst p < 256) K) by apply survivors2_ids.
    assert (HKu : Forall (fun p => listed [1; 2; 3] (fst p) = false) K)
      by apply survivors2_unlisted.
    assert (Hr : Forall (fun p => 0 <= fst p < 256)
                        (K ++ [(1, 10); (2, 20); (3, 30)])).
    { apply Forall_app. split; [exact HK|]. repeat constructor; simpl; lia. }
    pose proof (saveVars_entries [2] [99] 1 s1 s2
                  ltac:(simpl; lia) ltac:(simpl; lia) Hr1 H2) as E2.
    unfold saveVars_set in E2.
    change (new_ids [2] 1) with [2] in E2.
    change (new_pairs [2] [99] 1) with [(2, 99)] in E2.
    rewrite (survivors2_mk [2] (mem s1) _ E1 Hr) in E2.
    rewrite filter_app in E2.
    rewrite (filter_all _ K) in E2.
    2:{ revert HKu. apply Forall_impl. intros p Hp. unfold listed in *.
        cbn [existsb] in *. apply orb_false_iff in Hp. destruct Hp as [_ Hp].
        apply orb_false_iff in Hp. destruct Hp as [Hp _].
        now rewrite Hp. }
    change (filter (fun p => negb (listed [2] (fst p)))
                   [(1, 10); (2, 20); (3, 30)])
      with [(1, 10); (3, 30)] in E2.
    rewrite firstn_all2 in E2
      by (rewrite length_app; unfold MAX_VARS; cbn [length]; lia).
    rewrite <- app_assoc in E2. cbn [app] in E2.
    assert (Hr2 : Forall (fun p => 0 <= fst p < 256)
                         (K ++ [(1, 10); (3, 30); (2, 99)])).
    { apply Forall_app. split; [exact HK|]. repeat constructor; simpl; lia. }
    assert (Hskip : forall id, In id [1; 2; 3] ->
              Forall (fun p => (fst p =? id) = false) K).
    { intros id Hin. revert HKu. apply Forall_impl. intros p Hp.
      unfold listed in Hp. cbn [existsb] in Hp.
      apply orb_false_iff in Hp. destruct Hp as [Hp1 Hp].
      apply orb_false_iff in Hp. destruct Hp as [Hp2 Hp].
      apply orb_false_iff in Hp. destruct Hp as [Hp3 _].
      destruct Hin as [<- | [<- | [<- | []]]]; rewrite Z.eqb_sym; assumption. }
    rewrite !readVar_spec. cbn [value_of].
    rewrite !(read_value_mk _ _ _ E2 Hr2).
    rewrite !find_skip by (apply Hskip; simpl; auto).
    repeat split; reflexivity.
Qed.

Lemma saveVars_supersedes_listed_ids_witness :
  let s1 := after (EEPROM_saveVars [1; 2; 3] [10; 20; 30] 3) blank in
  let s2 := after (EEPROM_saveVars [2] [99] 1) s1 in
  value_of (EEPROM_readVar 1 s2) = Some 10
  /\ value_of (EEPROM_readVar 2 s2) = Some 99
  /\ value_of (EEPROM_readVar 3 s2) = Some 30.
Proof.
  cbv zeta.
  apply (proj2 saveVars_supersedes_listed_ids blank
           (after (EEPROM_saveVars [1; 2; 3] [10; 20; 30] 3) blank)
           (after (EEPROM_saveVars [2] [99] 1)
                  (after (EEPROM_saveVars [1; 2; 3] [10; 20; 30] 3) blank))).
  - vm_compute. lia.
  - vm_compute. reflexivity.
  - vm_compute. reflexivity.
Defined.

(** ** The rewrite as a sequence of guarded half-word programs *)

Lemma write_vars_words ws : forall k s,
  (k + length ws <= 1000)%nat ->
  write_vars ws (slot_addr k) s = write_all (ws_words k ws) s.
Proof.
  induction ws as [|[id v] ws IH]; intros k s Hk; [reflexivity|].
  cbn [length] in Hk.
  cbn [write_vars ws_words slot_words app write_all fst snd].
  rewrite !add32_slot by lia. rewrite slot_addr_S.
  unfold bind at 1 4. destruct (EEPROM_writeHalfWord (slot_addr k) id s) as [st1 s1|];
    [|reflexivity].
  destruct (negb (st1 =? EEPROM_OK)); [reflexivity|].
  unfold bind at 1 3.
  destruct (EEPROM_writeHalfWord (slot_addr k + 2) v s1) as [st2 s2|];
    [|reflexivity].
  destruct (negb (st2 =? EEPROM_OK)); [reflexivity|].
  unfold bind at 1 2.
  destruct (EEPROM_writeHalfWord (slot_addr k + 4) (EEPROM_calcCRC id v) s2)
    as [st3 s3|]; [|reflexivity].
  destruct (negb (st3 =? EEPROM_OK)); [reflexivity|].
  apply IH. lia.
Qed.

Lemma rewrite_page_words ws s s_f :
  (length ws <= 1000)%nat ->
  EEPROM_format s = Done EEPROM_OK s_f ->
  rewrite_page ws s = write_all (page_words ws) s_f.
Proof.
  intros Hlen Hf. unfold rewrite_page, erase_and_mark, page_words.
  rewrite bind_assoc, (bind_done _ _ _ _ _ Hf).
  passed.
  cbn [write_all]. rewrite bind_assoc.
  destruct (writeHalfWord_total EEPROM_ADDRESS EEPROM_MARKER s_f)
    as (st1 & s1 & H1 & (C1 & _)).
  rewrite !(bind_done _ _ _ _ _ H1).
  destruct C1 as [-> | ->].
  - passed.
    destruct (writeHalfWord_total (EEPROM_ADDRESS + 2) 0 s1)
      as (st2 & s2 & H2 & (C2 & _)).
    rewrite !(bind_done _ _ _ _ _ H2).
    destruct C2 as [-> | ->]; [|reflexivity].
    passed.
    rewrite slot_addr_0. apply write_vars_words. simpl. lia.
  - reflexivity.
Qed.

Lemma write_all_abort pre a d post : forall s s1 st s2,
  programmed pre s s1 ->
  EEPROM_writeHalfWord a d s1 = Done st s2 -> st <> EEPROM_OK ->
  write_all (pre ++ (a, d) :: post) s = Done EEPROM_ERROR s2.
Proof.
  induction pre as [|[a0 d0] pre IH]; intros s s1 st s2 Hp Hw Hst.
  - inversion Hp; subst. cbn [app write_all]. now apply (write_abort a d _ s1 st).
  - inversion Hp as [|? ? ? ? sa ? Hw0 Hp']; subst.
    cbn [app write_all]. rewrite (write_pass _ _ _ _ _ Hw0).
    now apply (IH sa s1 st).
Qed.

(** C8. In the rewrite phase of [EEPROM_saveVar] and [EEPROM_saveVars] the
    first half-word program that fails -- its status is not [EEPROM_OK], as
    after a timed-out wait, or the half-word does not read back as written --
    ends the routine at once: it returns [EEPROM_ERROR] in the very state
    that call left, so nothing further is programmed, nothing is retried, and
    the half-words due after it stay unwritten. *)
Theorem rewrite_aborts_on_first_failure :
  (forall id value s ws s0 s_f pre a d post s1 st s2,
      saveVar_collect id value s = Done (inr ws) s0 ->
      EEPROM_format s0 = Done EEPROM_OK s_f ->
      page_words ws = pre ++ (a, d) :: post ->
      programmed pre s_f s1 ->
      EEPROM_writeHalfWord a d s1 = Done st s2 ->
      st <> EEPROM_OK \/ mem s2 a <> d ->
      EEPROM_saveVar id value s = Done EEPROM_ERROR s2)
  /\ (forall ids values count s ws s0 s_f pre a d post s1 st s2,
         (Z.to_nat count <= length ids)%nat ->
         (Z.to_nat count <= length values)%nat ->
         saveVars_collect ids values count s = Done (inr ws) s0 ->
         EEPROM_format s0 = Done EEPROM_OK s_f ->
         page_words ws = pre ++ (a, d) :: post ->
         programmed pre s_f s1 ->
         EEPROM_writeHalfWord a d s1 = Done st s2 ->
         st <> EEPROM_OK \/ mem s2 a <> d ->
         EEPROM_saveVars ids values count s = Done EEPROM_ERROR s2).
Proof.
  assert (Hbad : forall a d s1 st s2,
             EEPROM_writeHalfWord a d s1 = Done st s2 ->
             st <> EEPROM_OK \/ mem s2 a <> d -> st <> EEPROM_OK).
  { intros a d s1 st s2 Hw [H | H]; [exact H|]. intros ->.
    destruct (writeHalfWord_total a d s1) as (st' & s2' & Hw' & (_ & _ & Hv)).
    rewrite Hw in Hw'. injection Hw' as <- <-. now apply H, Hv. }
  split.
  - intros id value s ws s0 s_f pre a d post s1 st s2 Hc Hf Hw Hp Hfail Hst.
    apply (Hbad _ _ _ _ _ Hfail) in Hst.
    unfold EEPROM_saveVar. step Hc.
    apply saveVar_collect_spec in Hc. destruct Hc as (_ & Hlen & _).
    rewrite (rewrite_page_words ws s0 s_f) by (unfold MAX_VARS in Hlen; lia || exact Hf).
    rewrite Hw. now apply (write_all_abort pre a d post s_f s1 st).
  - intros ids values count s ws s0 s_f pre a d post s1 st s2
           Hci Hcv Hc Hf Hw Hp Hfail Hst.
    apply (Hbad _ _ _ _ _ Hfail) in Hst.
    unfold EEPROM_saveVars. step Hc.
    apply saveVars_collect_spec in Hc; [|exact Hci|exact Hcv].
    destruct Hc as (-> & _).
    pose proof (saveVars_set_length ids values count (mem s)) as Hlen.
    rewrite (rewrite_page_words _ s0 s_f) by (unfold MAX_VARS in Hlen; lia || exact Hf).
    rewrite Hw. now apply (write_all_abort pre a d post s_f s1 st).
Qed.

Lemma rewrite_aborts_on_first_failure_witness :
  let s0 := after (saveVar_collect 5 1234) slow_seventh in
  let s_f := after EEPROM_format s0 in
  let sa := after (EEPROM_writeHalfWord EEPROM_ADDRESS EEPROM_MARKER) s_f in
  let s1 := after (EEPROM_writeHalfWord (EEPROM_ADDRESS + 2) 0) sa in
  let s2 := after (EEPROM_writeHalfWord (slot_addr 0) 5) s1 in
  EEPROM_saveVar 5 1234 slow_seventh = Done EEPROM_ERROR s2.
Proof.
  cbv zeta.
  apply (proj1 rewrite_aborts_on_first_failure 5 1234 slow_seventh
           [(5, 1234)]
           (after (saveVar_collect 5 1234) slow_seventh)
           (after EEPROM_format (after (saveVar_collect 5 1234) slow_seventh))
           [(EEPROM_ADDRESS, EEPROM_MARKER); (EEPROM_ADDRESS + 2, 0)]
           (slot_addr 0) 5
           [(slot_addr 0 + 2, 1234); (slot_addr 0 + 4, EEPROM_calcCRC 5 1234)]
           (after (EEPROM_writeHalfWord (EEPROM_ADDRESS + 2) 0)
              (after (EEPROM_writeHalfWord EEPROM_ADDRESS EEPROM_MARKER)
                 (after EEPROM_format (after (saveVar_collect 5 1234) slow_seventh))))
           EEPROM_ERROR
           (after (EEPROM_writeHalfWord (slot_addr 0) 5)
              (after (EEPROM_writeHalfWord (EEPROM_ADDRESS + 2) 0)
                 (after (EEPROM_writeHalfWord EEPROM_ADDRESS EEPROM_MARKER)
                    (after EEPROM_format
                       (after (saveVar_collect 5 1234) slow_seventh)))))).
  - vm_compute. reflexivity.
  - vm_compute. reflexivity.
  - reflexivity.
  - apply (programmed_cons _ _ _ _
             (after (EEPROM_writeHalfWord EEPROM_ADDRESS EEPROM_MARKER)
                (after EEPROM_format
                   (after (saveVar_collect 5 1234) slow_seventh))));
      [vm_compute; reflexivity|].
    apply (programmed_cons _ _ _ _
             (after (EEPROM_writeHalfWord (EEPROM_ADDRESS + 2) 0)
                (after (EEPROM_writeHalfWord EEPROM_ADDRESS EEPROM_MARKER)
                   (after EEPROM_format
                      (after (saveVar_collect 5 1234) slow_seventh)))));
      [vm_compute; reflexivity|].
    apply programmed_nil.
  - vm_compute. reflexivity.
  - left. discriminate.
Defined.

(** ** The capacity of the working set *)

(** C2 fails on [EEPROM_saveVar].  On an initialised region whose ten slots
    hold live entries of other ids, the scan fills all ten elements of
    [varIds] and [varValues], and "Add our new variable" then stores at
    index 10, outside both arrays: nothing is truncated, and the call has
    no defined behaviour. *)
Theorem saveVar_overflows_full_region (id value : Z) (s : Flash) :
  initialized (mem s) = true ->
  length (survivors1 id (mem s)) = MAX_VARS ->
  EEPROM_saveVar id value s = Undefined.
Proof.
  intros Hi Hfull. unfold EEPROM_saveVar, saveVar_collect.
  rewrite bind_assoc, (bind_done _ _ _ _ _ (isInitialized_eq s)), Hi.
  change (1 =? 0) with false. cbv iota.
  rewrite !bind_assoc, slot_addr_0.
  destruct (saveVar_scan_spec id MAX_VARS 0 [] (logged [EEPROM_ADDRESS] s))
    as (l & Hl); [unfold MAX_VARS; lia|simpl; lia|].
  step Hl.
  unfold ret at 1. unfold bind at 1. cbv iota.
  rewrite bind_assoc. cbn [app]. rewrite mem_logged.
  unfold survivors1, entries in Hfull. rewrite Hi in Hfull.
  unfold bind. rewrite ws_push_full; [reflexivity|]. rewrite Hfull. lia.
Qed.

Lemma saveVar_overflows_full_region_witness :
  EEPROM_saveVar 10 1234 full_region = Undefined.
Proof.
  apply (saveVar_overflows_full_region 10 1234 full_region);
    vm_compute; reflexivity.
Defined.

(** [EEPROM_saveVars], whose append loop has the guard, always stays within
    the arrays when the caller's arrays hold [count] elements: it returns, and
    what it hands to the rewrite has at most ten pairs. *)
Lemma saveVars_within_capacity ids values count s :
  (Z.to_nat count <= length ids)%nat ->
  (Z.to_nat count <= length values)%nat ->
  exists r s0, saveVars_collect ids values count s = Done r s0
               /\ match r with
                  | inl st => st = EEPROM_ERROR
                  | inr ws => (length ws <= MAX_VARS)%nat
                  end.
Proof.
  intros Hci Hcv. unfold saveVars_collect.
  rewrite (bind_done _ _ _ _ _ (isInitialized_eq s)).
  destruct (initialized (mem s)).
  - change (1 =? 0) with false. cbv iota.
    rewrite bind_assoc, slot_addr_0.
    destruct (saveVars_scan_spec ids count MAX_VARS 0 [] (logged [EEPROM_ADDRESS] s))
      as (l & Hl); [exact Hci|unfold MAX_VARS; lia|simpl; lia|].
    step Hl.
    unfold ret at 1. unfold bind at 1. cbv iota.
    rewrite (bind_done _ _ _ _ _
               (saveVars_append_spec ids values _ 0%nat _ _ Hci Hcv)).
    eexists _, _. split; [reflexivity|].
    cbn [app skipn]. rewrite length_app, length_firstn.
    assert (H : (length (map pair_of
                           (filter (keep2 (new_ids ids count))
                                   (scan (mem (logged [EEPROM_ADDRESS] s)) 0 MAX_VARS)))
                 <= MAX_VARS)%nat).
    { rewrite length_map.
      pose proof (filter_length_le (keep2 (new_ids ids count))
                    (scan (mem (logged [EEPROM_ADDRESS] s)) 0 MAX_VARS)).
      pose proof (scan_length (mem (logged [EEPROM_ADDRESS] s)) MAX_VARS 0). lia. }
    lia.
  - change (0 =? 0) with true. cbv iota. rewrite bind_assoc.
    destruct (format_total (logged [EEPROM_ADDRESS] s)) as (st & s1 & Hf & (Cf & _)).
    unfold erase_and_mark. rewrite bind_assoc, (bind_done _ _ _ _ _ Hf).
    destruct Cf as [-> | ->].
    + passed.
      rewrite bind_assoc.
      destruct (writeHalfWord_total EEPROM_ADDRESS EEPROM_MARKER s1)
        as (st2 & s2 & H2 & (C2 & _)).
      step H2.
      destruct C2 as [-> | ->].
      * passed.
        destruct (writeHalfWord_total (EEPROM_ADDRESS + 2) 0 s2)
          as (st3 & s3 & H3 & (C3 & _)).
        step H3.
        destruct C3 as [-> | ->].
        -- passed.
           unfold ret at 1. unfold bind at 1. cbv iota.
           rewrite (bind_done _ _ _ _ _
                      (saveVars_append_spec ids values _ 0%nat _ _ Hci Hcv)).
           eexists _, _. split; [reflexivity|].
           cbn [app length]. rewrite length_firstn. lia.
        -- eexists _, _. split; [reflexivity|reflexivity].
      * eexists _, _. split; [reflexivity|reflexivity].
    + eexists _, _. split; [reflexivity|reflexivity].
Qed.

(** ** What a save does to the other variables *)

Lemma find_app {A : Type} (p : A -> bool) (l1 l2 : list A) :
  find p (l1 ++ l2) = match find p l1 with
                      | Some x => Some x
                      | None => find p l2
                      end.
Proof.
  induction l1 as [|x l1 IH]; [reflexivity|]. cbn [app find].
  now destruct (p x).
Qed.

(** Looking an unaffected id up among the kept pairs is looking it up among
    the entries: [drop] tells the low bytes that are dropped, [id'] is not
    one of them. *)
Lemma find_kept (drop : Z -> bool) id' (E : list entry) :
  drop id' = false ->
  option_map snd
    (find (fun p => fst p =? id')
          (map pair_of (filter (fun e => crc_ok e && negb (drop (base_id e))) E)))
  = option_map e_value (find (matches id') E).
Proof.
  intros Hd. induction E as [|e E IH]; [reflexivity|].
  cbn [filter find]. unfold matches at 1.
  destruct (crc_ok e); cbn [andb].
  - destruct (base_id e =? id') eqn:Eb.
    + apply Z.eqb_eq in Eb. rewrite Eb, Hd. cbn [negb map find pair_of fst].
      rewrite Eb, Z.eqb_refl. reflexivity.
    + rewrite andb_true_r.
      destruct (drop (base_id e)); cbn [negb]; [exact IH|].
      cbn [map find pair_of fst]. rewrite Eb. exact IH.
  - rewrite andb_false_r. exact IH.
Qed.


Lemma read_value_find id m :
  read_value id m
  = match option_map e_value (find (matches id) (entries m)) with
    | Some v => v
    | None => 0xFFFF
    end.
Proof. unfold read_value. now destruct (find (matches id) (entries m)). Qed.

Lemma lookup_find id m :
  match lookup id m with Some _ => 1 | None => 0 end
  = match option_map e_value (find (matches id) (entries m)) with
    | Some _ => 1
    | None => 0
    end.
Proof.
  unfold lookup. rewrite find_index_find.
  destruct (find_index (matches id) (entries m)) as [i|] eqn:F;
    cbn [option_map]; [|reflexivity].
  pose proof (find_index_lt _ _ _ F) as Hlt.
  destruct (nth_error (entries m) i) eqn:N; [reflexivity|].
  apply nth_error_None in N. lia.
Qed.

Lemma lookup_mk id m (ws : workset) :
  entries m = map mk_entry ws ->
  Forall (fun p => 0 <= fst p < 256) ws ->
  match lookup id m with Some _ => 1 | None => 0 end
  = match find (fun p => fst p =? id) ws with Some _ => 1 | None => 0 end.
Proof.
  intros He Hr. rewrite lookup_find, He, find_matches_mk by exact Hr.
  now destruct (find (fun p => fst p =? id) ws).
Qed.

Lemma saveVar_ws_range id value m :
  0 <= id < 256 ->
  Forall (fun p => 0 <= fst p < 256) (survivors1 id m ++ [(id, value)]).
Proof.
  intros Hid. apply Forall_app. split; [apply survivors1_ids|].
  constructor; [exact Hid|constructor].
Qed.






(** X3. On a region without the marker the save routines do not scan: a
    successful [EEPROM_saveVar id value] leaves exactly one entry, the new
    one, whatever the slots held before, so every other id reads as not
    found and does not exist. *)
Theorem saveVar_on_unmarked_region (id value : Z) (s s' : Flash) :
  0 <= id < 256 ->
  initialized (mem s) = false ->
  EEPROM_saveVar id value s = Done EEPROM_OK s' ->
  entries (mem s') = [mk_entry (id, value)]
  /\ forall id', id' <> id ->
       value_of (EEPROM_readVar id' s') = Some 0xFFFF
       /\ value_of (EEPROM_varExists id' s') = Some 0.
Proof.
  intros Hid Hi H.
  pose proof (saveVar_entries _ _ _ _ Hid H) as He.
  unfold survivors1, entries at 2 in He. rewrite Hi in He. cbn [filter map app] in He.
  split; [exact He|]. intros id' Hne.
  assert (Hr : Forall (fun p => 0 <= fst p < 256) [(id, value)])
    by (constructor; [exact Hid|constructor]).
  apply Z.eqb_neq in Hne. rewrite Z.eqb_sym in Hne.
  rewrite readVar_spec, varExists_spec. cbn [value_of]. split; f_equal.
  - rewrite (read_value_mk id' _ [(id, value)] He Hr). cbn [find fst].
    now rewrite Hne.
  - rewrite (lookup_mk id' _ [(id, value)] He Hr). cbn [find fst].
    now rewrite Hne.
Qed.

Lemma saveVar_on_unmarked_region_witness :
  entries (mem (after (EEPROM_saveVar 5 1234) unmarked)) = [mk_entry (5, 1234)]
  /\ forall id', id' <> 5 ->
       value_of (EEPROM_readVar id' (after (EEPROM_saveVar 5 1234) unmarked))
       = Some 0xFFFF
       /\ value_of (EEPROM_varExists id' (after (EEPROM_saveVar 5 1234) unmarked))
          = Some 0.
Proof.
  apply (saveVar_on_unmarked_region 5 1234 unmarked
           (after (EEPROM_saveVar 5 1234) unmarked)).
  - lia.
  - vm_compute. reflexivity.
  - vm_compute. reflexivity.
Defined.

(** ** Reading back a batch save *)

Lemma listed_false_all ids b :
  listed ids b = false -> Forall (fun x => (x =? b) = false) ids.
Proof.
  unfold listed. induction ids as [|x ids IH]; intros H; [constructor|].
  cbn [existsb] in H. apply orb_false_iff in H. destruct H as [Hx H].
  constructor; [exact Hx|now apply IH].
Qed.

Lemma listed_true ids b : listed ids b = true -> In b ids.
Proof.
  unfold listed. intros H. apply existsb_exists in H.
  destruct H as (x & Hin & Hx). apply Z.eqb_eq in Hx. now subst.
Qed.

Lemma find_none_all {A : Type} (p : A -> bool) l :
  Forall (fun x => p x = false) l -> find p l = None.
Proof.
  induction 1 as [|x l Hx _ IH]; [reflexivity|]. cbn [find]. now rewrite Hx.
Qed.

Lemma stored_pairs_listed ids values count n b :
  listed (new_ids ids count) b = false ->
  Forall (fun p => (fst p =? b) = false) (firstn n (new_pairs ids values count)).
Proof.
  intros H. apply listed_false_all in H. rewrite Forall_forall in H.
  apply Forall_forall. intros [x v] Hin. apply In_firstn in Hin.
  unfold new_pairs in Hin. apply in_combine_l in Hin. now apply H.
Qed.

(** X4. What every id reads after a successful [EEPROM_saveVars].  An id
    that is not among the first [count] ids of the list reads what it read
    before.  An id of the list reads the value paired with its first
    occurrence among the pairs that were appended -- the first
    [10 - kept] ones, [kept] being the number of surviving entries -- and
    0xFFFF when it has no occurrence there: the call still returns
    [EEPROM_OK], and the value the id had before is gone as well.  When the
    survivors and [count] together do not exceed ten, every pair is
    appended. *)
Theorem saveVars_read_back (ids values : list Z) (count id' : Z) (s s' : Flash) :
  (Z.to_nat count <= length ids)%nat ->
  (Z.to_nat count <= length values)%nat ->
  Forall (fun x => 0 <= x < 256) (new_ids ids count) ->
  EEPROM_saveVars ids values count s = Done EEPROM_OK s' ->
  let kept := survivors2 (new_ids ids count) (mem s) in
  let stored := firstn (MAX_VARS - length kept) (new_pairs ids values count) in
  (listed (new_ids ids count) id' = false ->
   value_of (EEPROM_readVar id' s') = value_of (EEPROM_readVar id' s))
  /\ (listed (new_ids ids count) id' = true ->
      value_of (EEPROM_readVar id' s')
      = Some (match find (fun p => fst p =? id') stored with
              | Some p => snd p
              | None => 0xFFFF
              end))
  /\ ((length kept + Z.to_nat count <= MAX_VARS)%nat ->
      stored = new_pairs ids values count).
Proof.
  intros Hci Hcv Hid H kept stored.
  pose proof (saveVars_entries _ _ _ _ _ Hci Hcv Hid H) as He.
  unfold saveVars_set in He. fold kept in He. fold stored in He.
  assert (Hr : Forall (fun p => 0 <= fst p < 256) (kept ++ stored)).
  { apply Forall_app. split; [apply survivors2_ids|now apply new_pairs_ids]. }
  rewrite !readVar_spec. cbn [value_of].
  rewrite (read_value_mk _ _ _ He Hr). split; [|split].
  - intros Hl. f_equal. rewrite find_app, read_value_find.
    pose proof (find_kept (listed (new_ids ids count)) id' (entries (mem s)) Hl) as Hk.
    change (map pair_of
              (filter (fun e => crc_ok e && negb (listed (new_ids ids count) (base_id e)))
                      (entries (mem s)))) with kept in Hk.
    rewrite <- Hk.
    destruct (find (fun p => fst p =? id') kept); [reflexivity|].
    cbn [option_map]. unfold stored.
    now rewrite find_none_all by now apply stored_pairs_listed.
  - intros Hl. f_equal. rewrite find_skip; [reflexivity|].
    pose proof (survivors2_unlisted (new_ids ids count) (mem s)) as Hu.
    fold kept in Hu. revert Hu. apply Forall_impl. intros p Hp.
    destruct (fst p =? id') eqn:E; [|reflexivity].
    apply Z.eqb_eq in E. rewrite E, Hl in Hp. discriminate Hp.
  - intros Hroom. unfold stored. apply firstn_all2.
    unfold new_pairs. rewrite length_combine, !firstn_length_le by assumption.
    lia.
Qed.

Lemma saveVars_read_back_witness :
  let s1 := after (EEPROM_saveVars [0; 1; 2; 3; 4; 5; 6; 7; 8; 9]
                     [100; 101; 102; 103; 104; 105; 106; 107; 108; 109] 10) blank in
  let s2 := after (EEPROM_saveVars [20; 0] [200; 1000] 2) s1 in
  value_of (EEPROM_readVar 20 s2) = Some 200
  /\ value_of (EEPROM_readVar 0 s2) = Some 0xFFFF
  /\ value_of (EEPROM_readVar 9 s2) = value_of (EEPROM_readVar 9 s1).
Proof.
  cbv zeta.
  pose proof (fun id' =>
    saveVars_read_back [20; 0] [200; 1000] 2 id'
      (after (EEPROM_saveVars [0; 1; 2; 3; 4; 5; 6; 7; 8; 9]
                [100; 101; 102; 103; 104; 105; 106; 107; 108; 109] 10) blank)
      (after (EEPROM_saveVars [20; 0] [200; 1000] 2)
         (after (EEPROM_saveVars [0; 1; 2; 3; 4; 5; 6; 7; 8; 9]
                   [100; 101; 102; 103; 104; 105; 106; 107; 108; 109] 10) blank))
      ltac:(simpl; lia) ltac:(simpl; lia)
      ltac:(repeat constructor; lia)
      ltac:(vm_compute; reflexivity)) as H.
  cbv zeta in H. split; [|split].
  - rewrite (proj1 (proj2 (H 20)) eq_refl). vm_compute. reflexivity.
  - rewrite (proj1 (proj2 (H 0)) eq_refl). vm_compute. reflexivity.
  - apply (proj1 (H 9)). reflexivity.
Defined.

(** ** The integrity check *)

Lemma high_bit_16 a n : 0 <= a < 65536 -> 16 <= n -> Z.testbit a n = false.
Proof.
  intros Ha Hn. rewrite <- (Z.mod_small a (2 ^ 16)) by (change (2 ^ 16) with 65536; lia).
  apply Z.mod_pow2_bits_high. lia.
Qed.

Lemma lxor_16 a b :
  0 <= a < 65536 -> 0 <= b < 65536 -> Z.lxor a b mod 65536 = Z.lxor a b.
Proof.
  intros Ha Hb. change 65536 with (2 ^ 16). apply Z.bits_inj'. intros n Hn.
  destruct (Z.lt_ge_cases n 16) as [Hlt | Hge].
  - now apply Z.mod_pow2_bits_low.
  - rewrite Z.mod_pow2_bits_high by lia.
    rewrite Z.lxor_spec, !high_bit_16 by assumption. reflexivity.
Qed.

Lemma lxor_cancel_l a b c : Z.lxor a b = Z.lxor a c -> b = c.
Proof.
  intros H. apply Z.lxor_eq.
  replace (Z.lxor b c) with (Z.lxor (Z.lxor a b) (Z.lxor a c)).
  - rewrite H. apply Z.lxor_nilpotent.
  - rewrite Z.lxor_assoc, <- (Z.lxor_assoc b a c), (Z.lxor_comm b a).
    now rewrite Z.lxor_assoc, <- Z.lxor_assoc, Z.lxor_nilpotent, Z.lxor_0_l.
Qed.

(** X5. The check detects every change of a single half-word: if a record
    of three 16-bit half-words passes the test made by [EEPROM_findVar] and
    the scan loops, a record that differs from it in exactly one of Id,
    Value and Check fails that test. *)
Theorem check_detects_single_change (e e' : entry) :
  halfword (e_id e) -> halfword (e_value e) ->
  halfword (e_id e') -> halfword (e_value e') ->
  crc_ok e = true ->
  (e_id e' <> e_id e /\ e_value e' = e_value e /\ e_check e' = e_check e)
  \/ (e_id e' = e_id e /\ e_value e' <> e_value e /\ e_check e' = e_check e)
  \/ (e_id e' = e_id e /\ e_value e' = e_value e /\ e_check e' <> e_check e) ->
  crc_ok e' = false.
Proof.
  unfold halfword, crc_ok, EEPROM_calcCRC. intros Hi Hv Hi' Hv' Hok Hd.
  apply Z.eqb_eq in Hok. apply Z.eqb_neq.
  rewrite lxor_16 in Hok |- * by assumption.
  destruct Hd as [(Hn & Ev & Ec) | [(Ei & Hn & Ec) | (Ei & Ev & Hn)]].
  - rewrite Ec, Ev, Hok. intros E. apply Hn.
    rewrite (Z.lxor_comm (e_id e)), (Z.lxor_comm (e_id e')) in E.
    apply lxor_cancel_l in E. now symmetry.
  - rewrite Ec, Ei, Hok. intros E. apply Hn.
    apply lxor_cancel_l in E. now symmetry.
  - rewrite Ei, Ev, <- Hok. exact Hn.
Qed.

Lemma check_detects_single_change_witness :
  crc_ok (mkEntry 5 1235 (EEPROM_calcCRC 5 1234)) = false.
Proof.
  apply (check_detects_single_change (mk_entry (5, 1234))
           (mkEntry 5 1235 (EEPROM_calcCRC 5 1234))).
  - unfold halfword. simpl. lia.
  - unfold halfword. simpl. lia.
  - unfold halfword. simpl. lia.
  - unfold halfword. simpl. lia.
  - reflexivity.
  - right. left. simpl. split; [reflexivity|]. split; [discriminate|reflexivity].
Defined.

(** * More of the driver: the hardware it needs, and what it then does *)


(** ** The wait loop *)

Lemma set_busy_same s : set_busy (busy s) s = s.
Proof. now destruct s. Qed.

Lemma poll_spec t : forall s,
  poll t s
  = if (busy s <? N.of_nat t)%N
    then ((t - N.to_nat (busy s))%nat, set_busy 0 s)
    else (O, set_busy (busy s - N.of_nat t - 1) s).
Proof.
  induction t as [|t IH]; intros s; cbn [poll]; unfold read_BSY;
    destruct (0 <? busy s)%N eqn:E.
  - apply N.ltb_lt in E.
    replace (busy s <? N.of_nat 0)%N with false by (symmetry; apply N.ltb_ge; lia).
    do 2 f_equal. lia.
  - apply N.ltb_ge in E. assert (E0 : busy s = 0%N) by lia.
    replace (busy s <? N.of_nat 0)%N with false by (symmetry; apply N.ltb_ge; lia).
    f_equal. rewrite E0. cbn. rewrite <- E0. now rewrite set_busy_same.
  - apply N.ltb_lt in E. rewrite IH. cbn [busy set_busy].
    destruct (N.pred (busy s) <? N.of_nat t)%N eqn:E1.
    + apply N.ltb_lt in E1.
      replace (busy s <? N.of_nat (S t))%N with true by (symmetry; apply N.ltb_lt; lia).
      f_equal. lia.
    + apply N.ltb_ge in E1.
      replace (busy s <? N.of_nat (S t))%N with false by (symmetry; apply N.ltb_ge; lia).
      f_equal. unfold set_busy. cbn. f_equal. lia.
  - apply N.ltb_ge in E. assert (E0 : busy s = 0%N) by lia.
    replace (busy s <? N.of_nat (S t))%N with true by (symmetry; apply N.ltb_lt; lia).
    rewrite E0. cbn [N.to_nat]. rewrite Nat.sub_0_r. f_equal.
    rewrite <- E0. now rewrite set_busy_same.
Qed.

Lemma wait_timeout_N : N.of_nat WAIT_TIMEOUT = 50000%N.
Proof. vm_compute. reflexivity. Qed.

Lemma wait_spec s :
  EEPROM_waitForLastOperation s
  = if (busy s <? 50000)%N
    then Done EEPROM_OK (set_busy 0 s)
    else Done EEPROM_ERROR (set_busy (busy s - 50001) s).
Proof.
  unfold EEPROM_waitForLastOperation. rewrite poll_spec, wait_timeout_N.
  destruct (busy s <? 50000)%N eqn:E.
  - apply N.ltb_lt in E.
    replace (0 <? WAIT_TIMEOUT - N.to_nat (busy s))%nat with true; [reflexivity|].
    symmetry. apply Nat.ltb_lt.
    assert (H : (N.to_nat (busy s) < WAIT_TIMEOUT)%nat).
    { rewrite <- (Nnat.Nat2N.id WAIT_TIMEOUT), wait_timeout_N. lia. }
    lia.
  - cbn [Nat.ltb Nat.leb]. do 2 f_equal. lia.
Qed.

Lemma wait_working s :
  (busy s < 50000)%N ->
  EEPROM_waitForLastOperation s = Done EEPROM_OK (set_busy 0 s).
Proof. intros H. rewrite wait_spec. apply N.ltb_lt in H. now rewrite H. Qed.


Lemma land_halfword a b : halfword a -> halfword (Z.land a b).
Proof.
  unfold halfword. intros Ha.
  assert (E : Z.land a b mod 2 ^ 16 = Z.land a b).
  { apply Z.bits_inj'. intros n Hn.
    destruct (Z.lt_ge_cases n 16) as [Hlt | Hge].
    - now apply Z.mod_pow2_bits_low.
    - rewrite Z.mod_pow2_bits_high by lia.
      rewrite Z.land_spec, high_bit_16 by assumption. reflexivity. }
  rewrite <- E. change 65536 with (2 ^ 16). apply Z.mod_pos_bound. lia.
Qed.

Lemma land_erased d : halfword d -> Z.land 0xFFFF d = d.
Proof.
  unfold halfword. intros H. rewrite Z.land_comm.
  change 65535 with (Z.ones 16). rewrite Z.land_ones by lia.
  apply Z.mod_small. change (2 ^ 16) with 65536. lia.
Qed.

Lemma start_op_working s : working s -> working (start_op s).
Proof.
  intros (Hw & _ & Hl). unfold start_op, working.
  destruct (latency s) as [|n l] eqn:E.
  - split; [exact Hw|]. split; [reflexivity|]. cbn. rewrite E. constructor.
  - inversion Hl; subst. split; [exact Hw|]. split; assumption.
Qed.

Lemma erase_page_base m : erase_page m EEPROM_ADDRESS EEPROM_ADDRESS = 0xFFFF.
Proof. reflexivity. Qed.

Lemma spent_refl s : spent s s 0 0.
Proof. unfold spent. lia. Qed.

Lemma spent_trans s s1 s2 e1 w1 e2 w2 :
  spent s s1 e1 w1 -> spent s1 s2 e2 w2 -> spent s s2 (e1 + e2) (w1 + w2).
Proof. unfold spent. intros [H1 H2] [H3 H4]. rewrite H3, H4, H1, H2. lia. Qed.

Lemma spent_logged l s : spent s (logged l s) 0 0.
Proof.
  unfold spent, logged, erases, stores. cbn [log set_log].
  rewrite !filter_app, !length_app.
  assert (E : forall (p : event -> bool),
             (forall a, p (EvLoad a) = false) ->
             filter p (rev (map EvLoad l)) = []).
  { intros p Hp. induction l as [|a l IH]; [reflexivity|].
    cbn [map rev]. rewrite filter_app, IH. cbn [filter]. now rewrite Hp. }
  rewrite !E by reflexivity. cbn [length]. lia.
Qed.

Lemma start_op_log s : log (start_op s) = log s.
Proof. unfold start_op. now destruct (latency s). Qed.

Lemma unlock_working s :
  wprot s = false ->
  exists k, EEPROM_unlockFlash s = Done tt (set_key1 k (set_lock false s)).
Proof.
  intros Hw. unfold EEPROM_unlockFlash, write_KEYR, modify, bind.
  destruct s as [m l p pe k1 wp a b lat lg]. cbn in Hw. subst wp.
  destruct l; cbn.
  - now exists false.
  - now exists k1.
Qed.

Lemma start_op_lock s : lock (start_op s) = lock s.
Proof. unfold start_op. now destruct (latency s). Qed.

Lemma start_op_wprot s : wprot (start_op s) = wprot s.
Proof. unfold start_op. now destruct (latency s). Qed.

(** [EEPROM_format] on a working part. *)
Lemma format_working s :
  working s ->
  exists s', EEPROM_format s = Done EEPROM_OK s'
             /\ working s'
             /\ lock s' = true
             /\ mem s' = erase_page (mem s) EEPROM_ADDRESS
             /\ spent s s' 1 0.
Proof.
  intros Hs. pose proof Hs as (Hw & Hb & Hl). unfold EEPROM_format.
  destruct (unlock_working s Hw) as (k & Hu). step Hu.
  set (s1 := set_key1 k (set_lock false s)).
  assert (Hb1 : (busy s1 < 50000)%N) by exact Hb.
  step (wait_working _ Hb1). passed.
  unfold modify at 1 2. unfold bind at 1 2.
  set (s2 := set_addr EEPROM_ADDRESS (set_per true (set_busy 0 s1))).
  assert (Hstrt : ctlr_set_STRT s2
                  = Done tt (start_op (set_mem (erase_page (mem s) EEPROM_ADDRESS)
                                               (add_log (EvErase EEPROM_ADDRESS) s2))))
    by reflexivity.
  step Hstrt.
  set (s3 := start_op _).
  assert (Hs3 : working s3).
  { apply start_op_working. split; [exact Hw|]. split; [reflexivity|exact Hl]. }
  step (wait_working _ (proj1 (proj2 Hs3))).
  unfold modify at 1. unfold bind at 1.
  unfold load16 at 1. unfold bind at 1.
  assert (Hm3 : mem s3 = erase_page (mem s) EEPROM_ADDRESS)
    by (unfold s3; now rewrite start_op_mem).
  cbn [mem set_per set_busy add_log set_log]. rewrite Hm3, erase_page_base.
  change (negb (65535 =? 65535)) with false. cbv iota.
  eexists. split; [reflexivity|]. split; [|split; [|split]].
  - destruct Hs3 as (H1 & _ & H3). split; [exact H1|]. split; [reflexivity|exact H3].
  - reflexivity.
  - exact Hm3.
  - unfold spent. cbn [log set_lock add_log set_log set_per set_busy].
    unfold s3. rewrite start_op_log. unfold erases, stores. cbn. lia.
Qed.

(** [EEPROM_writeHalfWord] on a working part. *)
Lemma write_working a d s :
  working s ->
  exists s', EEPROM_writeHalfWord a d s
             = Done (if Z.land (mem s a) d =? d then EEPROM_OK else EEPROM_ERROR) s'
             /\ working s'
             /\ lock s' = true
             /\ mem s' = upd (mem s) a (Z.land (mem s a) d)
             /\ spent s s' 0 1.
Proof.
  intros Hs. pose proof Hs as (Hw & Hb & Hl). unfold EEPROM_writeHalfWord.
  destruct (unlock_working s Hw) as (k & Hu). step Hu.
  set (s1 := set_key1 k (set_lock false s)).
  assert (Hb1 : (busy s1 < 50000)%N) by exact Hb.
  step (wait_working _ Hb1). passed.
  unfold modify at 1. unfold bind at 1.
  set (s2 := set_pg true (set_busy 0 s1)).
  assert (Hst : store16 a d s2
                = Done tt (start_op (set_mem (upd (mem s) a (Z.land (mem s a) d))
                                             (add_log (EvStore a d) s2))))
    by reflexivity.
  step Hst.
  set (s3 := start_op _).
  assert (Hs3 : working s3).
  { apply start_op_working. split; [exact Hw|]. split; [reflexivity|exact Hl]. }
  step (wait_working _ (proj1 (proj2 Hs3))).
  unfold modify at 1. unfold bind at 1.
  unfold load16 at 1. unfold bind at 1.
  assert (Hm3 : mem s3 = upd (mem s) a (Z.land (mem s a) d))
    by (unfold s3; now rewrite start_op_mem).
  cbn [mem set_pg set_busy add_log set_log]. rewrite Hm3, upd_same.
  assert (Hfin : forall st, exists s',
            (EEPROM_lockFlash ;; (ret st : M Z))
              (add_log (EvLoad a) (set_pg false (set_busy 0 s3))) = Done st s'
            /\ working s' /\ lock s' = true
            /\ mem s' = upd (mem s) a (Z.land (mem s a) d)
            /\ spent s s' 0 1).
  { intros st. eexists. split; [reflexivity|]. split; [|split; [|split]].
    - destruct Hs3 as (H1 & _ & H3). split; [exact H1|]. split; [reflexivity|exact H3].
    - reflexivity.
    - exact Hm3.
    - unfold spent. cbn [log set_lock add_log set_log set_pg set_busy].
      unfold s3. rewrite start_op_log. unfold erases, stores. cbn. lia. }
  destruct (Z.land (mem s a) d =? d); cbn [negb]; apply Hfin.
Qed.

Lemma same_page_iff x : same_page x EEPROM_ADDRESS = true <-> in_region x.
Proof.
  split; [|apply same_page_region].
  unfold same_page, in_region, PAGE_SIZE, EEPROM_ADDRESS. intros H.
  apply Z.eqb_eq in H. change (134233088 / 1024) with 131087 in H.
  pose proof (Z.div_mod x 1024 ltac:(lia)) as Hd.
  pose proof (Z.mod_pos_bound x 1024 ltac:(lia)) as Hm.
  rewrite H in Hd. lia.
Qed.

Lemma erase_page_halfwords m : halfwords m -> halfwords (erase_page m EEPROM_ADDRESS).
Proof.
  intros H x. unfold erase_page. destruct (same_page x EEPROM_ADDRESS); [|apply H].
  unfold halfword. lia.
Qed.

Lemma upd_land_halfwords m a d : halfwords m -> halfwords (upd m a (Z.land (m a) d)).
Proof.
  intros H x. unfold upd. destruct (x =? a); [|apply H]. apply land_halfword, H.
Qed.


Lemma sound_logged l s : sound s -> sound (logged l s).
Proof. intros H. exact H. Qed.

Lemma erase_and_mark_sound s :
  sound s ->
  exists s', erase_and_mark s = Done EEPROM_OK s'
             /\ sound s'
             /\ lock s' = true
             /\ mem s' = upd (upd (erase_page (mem s) EEPROM_ADDRESS)
                                  EEPROM_ADDRESS EEPROM_MARKER)
                             (EEPROM_ADDRESS + 2) 0
             /\ spent s s' 1 2.
Proof.
  intros [Hw Hh]. unfold erase_and_mark.
  destruct (format_working s Hw) as (s1 & H1 & Hw1 & _ & M1 & W1).
  step H1. passed.
  destruct (write_working EEPROM_ADDRESS EEPROM_MARKER s1 Hw1)
    as (s2 & H2 & Hw2 & _ & M2 & W2).
  rewrite M1, erase_page_base in H2, M2.
  change (Z.land 65535 EEPROM_MARKER) with EEPROM_MARKER in H2, M2.
  rewrite Z.eqb_refl in H2. step H2. passed.
  destruct (write_working (EEPROM_ADDRESS + 2) 0 s2 Hw2)
    as (s3 & H3 & Hw3 & L3 & M3 & W3).
  rewrite M2 in H3, M3.
  change (upd (erase_page (mem s) EEPROM_ADDRESS) EEPROM_ADDRESS EEPROM_MARKER
              (EEPROM_ADDRESS + 2)) with 65535 in H3, M3.
  change (Z.land 65535 0) with 0 in H3, M3. rewrite Z.eqb_refl in H3.
  exists s3. split; [exact H3|]. split; [|split; [exact L3|split; [exact M3|]]].
  - split; [exact Hw3|]. rewrite M3. intros x. unfold upd.
    destruct (x =? EEPROM_ADDRESS + 2); [unfold halfword; lia|].
    destruct (x =? EEPROM_ADDRESS); [unfold halfword, EEPROM_MARKER; lia|].
    now apply erase_page_halfwords.
  - apply (spent_trans _ _ _ 1 0 0 2 W1). apply (spent_trans _ _ _ 0 1 0 1 W2 W3).
Qed.


Lemma crc_halfword a b : halfword (EEPROM_calcCRC a b).
Proof. unfold halfword, EEPROM_calcCRC. apply Z.mod_pos_bound. lia. Qed.

Lemma write_erased a d s :
  sound s -> mem s a = 0xFFFF -> halfword d ->
  exists s', EEPROM_writeHalfWord a d s = Done EEPROM_OK s'
             /\ sound s' /\ lock s' = true /\ mem s' = upd (mem s) a d
             /\ spent s s' 0 1.
Proof.
  intros [Hw Hh] Ha Hd.
  destruct (write_working a d s Hw) as (s' & H & Hw' & L & M & W).
  rewrite Ha, land_erased in H, M by exact Hd. rewrite Z.eqb_refl in H.
  exists s'. split; [exact H|]. split; [|split; [exact L|split; [exact M|exact W]]].
  split; [exact Hw'|]. rewrite M. intros x. unfold upd.
  destruct (x =? a); [exact Hd|apply Hh].
Qed.

Lemma write_vars_sound ws : forall k s,
  sound s ->
  (forall x, slot_addr k <= x < slot_addr (k + length ws) -> mem s x = 0xFFFF) ->
  Forall pair_halfwords ws ->
  (k + length ws <= 160)%nat ->
  exists s', write_vars ws (slot_addr k) s = Done EEPROM_OK s'
             /\ sound s' /\ lock s' = lock s || negb (length ws =? 0)%nat
             /\ spent s s' 0 (3 * length ws).
Proof.
  induction ws as [|[id v] ws IH]; intros k s Hs He Hr Hk.
  - exists s. split; [reflexivity|]. split; [exact Hs|]. split.
    + cbn. now rewrite orb_false_r.
    + apply spent_refl.
  - cbn [length] in Hk, He. inversion Hr as [|? ? [Hid Hv] Hr']; subst.
    cbn [fst snd] in Hid, Hv. cbn [write_vars].
    assert (Hgrow : slot_addr k + 6 <= slot_addr (k + S (length ws)))
      by (unfold slot_addr; lia).
    destruct (write_erased (slot_addr k) id s Hs) as (s1 & H1 & Hs1 & _ & M1 & W1);
      [apply He; lia|exact Hid|].
    step H1. passed. rewrite !add32_slot by lia.
    destruct (write_erased (slot_addr k + 2) v s1 Hs1)
      as (s2 & H2 & Hs2 & _ & M2 & W2);
      [rewrite M1, upd_other by lia; apply He; lia|exact Hv|].
    step H2. passed.
    destruct (write_erased (slot_addr k + 4) (EEPROM_calcCRC id v) s2 Hs2)
      as (s3 & H3 & Hs3 & L3 & M3 & W3);
      [rewrite M2, upd_other, M1, upd_other by lia; apply He; lia
      |apply crc_halfword|].
    step H3. passed. rewrite slot_addr_S.
    destruct (IH (S k) s3 Hs3) as (s' & H' & Hs' & L' & W'); [|exact Hr'|lia|].
    + intros x Hx. rewrite M3, upd_other, M2, upd_other, M1, upd_other
        by (rewrite <- slot_addr_S in Hx; lia).
      apply He. rewrite <- slot_addr_S in Hx.
      replace (k + S (length ws))%nat with (S k + length ws)%nat by lia. lia.
    + exists s'. split; [exact H'|]. split; [exact Hs'|]. split.
      * rewrite L', L3. cbn. now rewrite orb_true_r.
      * pose proof (spent_trans _ _ _ _ _ _ _ W1
                      (spent_trans _ _ _ _ _ _ _ W2
                         (spent_trans _ _ _ _ _ _ _ W3 W'))) as W.
        cbn [length]. unfold spent in *. lia.
Qed.

Lemma rewrite_page_sound ws s :
  sound s ->
  Forall pair_halfwords ws ->
  (length ws <= MAX_VARS)%nat ->
  exists s', rewrite_page ws s = Done EEPROM_OK s' /\ sound s' /\ lock s' = true
             /\ spent s s' 1 (2 + 3 * length ws).
Proof.
  intros Hs Hr Hlen. unfold rewrite_page. unfold MAX_VARS in Hlen.
  destruct (erase_and_mark_sound s Hs) as (s1 & H1 & Hs1 & L1 & M1 & W1).
  step H1. passed. rewrite slot_addr_0.
  destruct (write_vars_sound ws 0 s1 Hs1) as (s' & H' & Hs' & L' & W');
    [|exact Hr|lia|].
  - intros x Hx. rewrite M1.
    assert (Hb : slot_addr 0 = EEPROM_ADDRESS + 4) by reflexivity.
    assert (Ht : slot_addr (0 + length ws) <= EEPROM_ADDRESS + 64)
      by (unfold slot_addr; lia).
    rewrite !upd_other by lia. unfold erase_page.
    rewrite same_page_region; [reflexivity|].
    unfold in_region, PAGE_SIZE. lia.
  - exists s'. split; [exact H'|]. split; [exact Hs'|]. split.
    + rewrite L', L1. reflexivity.
    + pose proof (spent_trans _ _ _ _ _ _ _ W1 W') as W.
      unfold spent in *. lia.
Qed.

Lemma In_scan m n : forall k e, In e (scan m k n) -> exists i, e = slot m i.
Proof.
  intros k e H. apply In_nth_error in H. destruct H as (i & H).
  apply scan_nth in H. destruct H as [-> _]. now eexists.
Qed.

Lemma In_entries m e : In e (entries m) -> exists i, e = slot m i.
Proof.
  unfold entries. destruct (initialized m); [apply In_scan|intros []].
Qed.

Lemma byte_halfword x : 0 <= x < 256 -> halfword x.
Proof. unfold halfword. lia. Qed.

Lemma survivors1_halfwords id m :
  halfwords m -> Forall pair_halfwords (survivors1 id m).
Proof.
  intros Hm. unfold survivors1. apply Forall_map, Forall_forall. intros e He.
  apply filter_In in He. destruct He as [He _]. apply In_entries in He.
  destruct He as (i & ->). split; cbn [pair_of fst snd slot e_value].
  - apply byte_halfword, land255_range.
  - apply Hm.
Qed.

Lemma survivors2_halfwords ids m :
  halfwords m -> Forall pair_halfwords (survivors2 ids m).
Proof.
  intros Hm. unfold survivors2. apply Forall_map, Forall_forall. intros e He.
  apply filter_In in He. destruct He as [He _]. apply In_entries in He.
  destruct He as (i & ->). split; cbn [pair_of fst snd slot e_value].
  - apply byte_halfword, land255_range.
  - apply Hm.
Qed.

(** The collect phase of [EEPROM_saveVar] on a sound part with room. *)
Lemma saveVar_collect_sound id value s :
  sound s ->
  (initialized (mem s) = true -> (length (survivors1 id (mem s)) < MAX_VARS)%nat) ->
  exists s0, saveVar_collect id value s
             = Done (inr (survivors1 id (mem s) ++ [(id, value)])) s0
             /\ sound s0
             /\ spent s s0 (if initialized (mem s) then 0 else 1)
                            (if initialized (mem s) then 0 else 2).
Proof.
  intros Hs Hroom. unfold saveVar_collect.
  step (isInitialized_eq s). unfold survivors1, entries in *.
  destruct (initialized (mem s)) eqn:E.
  - change (1 =? 0) with false. cbv iota.
    rewrite bind_assoc, slot_addr_0.
    destruct (saveVar_scan_spec id MAX_VARS 0 [] (logged [EEPROM_ADDRESS] s))
      as (l & Hl); [unfold MAX_VARS; lia|simpl; lia|].
    step Hl. unfold ret at 1. unfold bind at 1. cbv iota.
    rewrite mem_logged. cbn [app].
    step (ws_push_ok _ id value (logged l (logged [EEPROM_ADDRESS] s)) (Hroom eq_refl)).
    eexists. split; [reflexivity|]. split; [exact Hs|].
    apply (spent_trans _ _ _ 0 0 0 0 (spent_logged [EEPROM_ADDRESS] s)).
    apply spent_logged.
  - change (0 =? 0) with true. cbv iota. rewrite bind_assoc.
    destruct (erase_and_mark_sound _ (sound_logged [EEPROM_ADDRESS] s Hs))
      as (s1 & H1 & Hs1 & _ & _ & W1).
    step H1. passed. unfold ret at 1. unfold bind at 1. cbv iota.
    assert (H0 : (length (@nil (Z * Z)) < MAX_VARS)%nat) by (unfold MAX_VARS; simpl; lia).
    step (ws_push_ok [] id value s1 H0).
    eexists. split; [reflexivity|]. split; [exact Hs1|].
    apply (spent_trans _ _ _ 0 0 1 2 (spent_logged [EEPROM_ADDRESS] s) W1).
Qed.

Lemma saveVar_sound id value s :
  sound s -> 0 <= id < 256 -> halfword value ->
  (initialized (mem s) = true -> (length (survivors1 id (mem s)) < MAX_VARS)%nat) ->
  exists s', EEPROM_saveVar id value s = Done EEPROM_OK s'
             /\ sound s' /\ lock s' = true
             /\ spent s s' (if initialized (mem s) then 1 else 2)
                           ((if initialized (mem s) then 2 else 4)
                            + 3 * (length (survivors1 id (mem s)) + 1)).
Proof.
  intros Hs Hid Hv Hroom. unfold EEPROM_saveVar.
  destruct (saveVar_collect_sound id value s Hs Hroom) as (s0 & Hc & Hs0 & W0).
  step Hc.
  destruct (rewrite_page_sound (survivors1 id (mem s) ++ [(id, value)]) s0 Hs0)
    as (s' & H' & Hs' & L' & W').
  3:{ exists s'. split; [exact H'|]. split; [exact Hs'|]. split; [exact L'|].
      pose proof (spent_trans _ _ _ _ _ _ _ W0 W') as W.
      rewrite length_app in W. cbn [length] in W.
      unfold spent in *. destruct (initialized (mem s)); lia. }
  - apply Forall_app. split; [apply survivors1_halfwords, Hs|].
    constructor; [|constructor]. split; [now apply byte_halfword|exact Hv].
  - rewrite length_app. cbn [length].
    destruct (initialized (mem s)) eqn:E.
    + specialize (Hroom eq_refl). lia.
    + unfold survivors1, entries. rewrite E. unfold MAX_VARS. simpl. lia.
Qed.

Lemma survivors1_mk id m (ws : workset) :
  entries m = map mk_entry ws ->
  Forall (fun p => 0 <= fst p < 256) ws ->
  survivors1 id m = filter (fun p => negb (fst p =? id)) ws.
Proof.
  intros He Hr. unfold survivors1. rewrite He. clear He.
  induction Hr as [|p ws Hp _ IH]; [reflexivity|].
  cbn [map filter]. unfold keep1 at 1.
  rewrite crc_ok_mk, base_id_mk by exact Hp. rewrite andb_true_r.
  destruct (fst p =? id); cbn [negb map].
  - exact IH.
  - now rewrite pair_of_mk, IH.
Qed.

(** A save of [id] leaves the same entries of other ids for the next one. *)
Lemma saveVar_same_survivors id value s s' :
  0 <= id < 256 ->
  EEPROM_saveVar id value s = Done EEPROM_OK s' ->
  survivors1 id (mem s') = survivors1 id (mem s)
  /\ initialized (mem s') = true.
Proof.
  intros Hid H.
  pose proof (saveVar_entries _ _ _ _ Hid H) as He.
  pose proof (saveVar_ws_range id value (mem s) Hid) as Hr.
  split.
  - rewrite (survivors1_mk id _ _ He Hr), filter_app.
    cbn [filter fst]. rewrite Z.eqb_refl. cbn [negb]. rewrite app_nil_r.
    apply filter_all. pose proof (survivors1_other id (mem s)) as Ho.
    revert Ho. apply Forall_impl. intros p Hp. now rewrite Hp.
  - unfold entries in He. destruct (initialized (mem s')); [reflexivity|].
    destruct (survivors1 id (mem s)); discriminate He.
Qed.

Lemma saveVar_reads_back id value s s' :
  0 <= id < 256 ->
  EEPROM_saveVar id value s = Done EEPROM_OK s' ->
  read_value id (mem s') = value.
Proof.
  intros Hid H.
  pose proof (saveVar_entries _ _ _ _ Hid H) as He.
  pose proof (saveVar_ws_range id value (mem s) Hid) as Hr.
  rewrite (read_value_mk _ _ _ He Hr), find_skip by apply survivors1_other.
  cbn [find fst]. now rewrite Z.eqb_refl.
Qed.

Lemma read_value_halfword id m : halfwords m -> halfword (read_value id m).
Proof.
  intros Hm. unfold read_value.
  destruct (find (matches id) (entries m)) as [e|] eqn:F; [|unfold halfword; lia].
  apply find_some in F. destruct F as [F _]. apply In_entries in F.
  destruct F as (i & ->). apply Hm.
Qed.

Lemma main_loop_sound n : forall test out s,
  sound s -> has_room 1 (mem s) -> halfword test ->
  exists s',
    main_loop n test out s
    = Done ((test + Z.of_nat n) mod 65536,
            out ++ map (fun i => (test + Z.of_nat i) mod 65536) (seq 0 n)) s'
    /\ sound s' /\ has_room 1 (mem s')
    /\ ((0 < n)%nat -> read_value 1 (mem s') = (test + Z.of_nat n) mod 65536).
Proof.
  induction n as [|n IH]; intros test out s Hs Hroom Ht.
  - exists s. cbn [main_loop seq map]. rewrite app_nil_r, Z.add_0_r.
    rewrite Z.mod_small by exact Ht.
    split; [reflexivity|]. split; [exact Hs|]. split; [exact Hroom|].
    intros H. lia.
  - cbn [main_loop]. cbv zeta.
    assert (Ht' : halfword ((test + 1) mod 65536))
      by (apply Z.mod_pos_bound; lia).
    assert (H01 : 0 <= 1 < 256) by lia.
    destruct (saveVar_sound 1 ((test + 1) mod 65536) s Hs H01 Ht' Hroom)
      as (s1 & H1 & Hs1 & _).
    step H1.
    destruct (saveVar_same_survivors _ _ _ _ H01 H1) as [Hsv Hi1].
    assert (Hroom1 : has_room 1 (mem s1)).
    { intros _. rewrite Hsv. unfold has_room in Hroom.
      destruct (initialized (mem s)) eqn:E; [now apply Hroom|].
      unfold survivors1, entries. rewrite E. unfold MAX_VARS. simpl. lia. }
    destruct (IH ((test + 1) mod 65536) (out ++ [test]) s1 Hs1 Hroom1 Ht')
      as (s' & H' & Hs' & Hroom' & Hread).
    exists s'. rewrite H'.
    assert (Eq : forall i, ((test + 1) mod 65536 + Z.of_nat i) mod 65536
                           = (test + Z.of_nat (S i)) mod 65536).
    { intros i. rewrite Z.add_mod_idemp_l by lia. f_equal. lia. }
    split; [|split; [exact Hs'|split; [exact Hroom'|]]].
    + f_equal. f_equal; [apply Eq|].
      rewrite <- app_assoc. f_equal. cbn [app].
      change (seq 0 (S n)) with (0%nat :: seq 1 n). cbn [map]. f_equal.
      * change (Z.of_nat 0) with 0. rewrite Z.add_0_r.
        symmetry. apply Z.mod_small. exact Ht.
      * rewrite <- seq_shift, map_map. apply map_ext. intros i. apply Eq.
    + intros _. destruct n as [|n].
      * assert (E1 : s' = s1)
          by (cbn [main_loop] in H'; unfold ret in H'; congruence).
        rewrite E1. change (Z.of_nat 1) with 1.
        now apply (saveVar_reads_back 1 _ s s1 H01).
      * rewrite <- Eq. apply Hread. lia.
Qed.


(** ** The controller is locked again *)

Lemma writeHalfWord_returns_locked a d s :
  exists st s', EEPROM_writeHalfWord a d s = Done st s' /\ lock s' = true.
Proof.
  unfold EEPROM_writeHalfWord.
  destruct (unlock_total s) as (s1 & H1 & _). step H1.
  destruct (wait_total s1) as (st1 & s2 & H2 & _ & C2). step H2.
  destruct C2 as [-> | ->]; simpl.
  - unfold modify at 1. unfold bind at 1.
    destruct (store16_total a d (set_pg true s2)) as (s3 & H3 & _). step H3.
    destruct (wait_total s3) as (st4 & s4 & H4 & _ & _). step H4.
    unfold modify, load16, EEPROM_lockFlash, bind, ret; simpl.
    destruct (mem s4 a =? d); simpl; eexists _, _; split; reflexivity.
  - unfold EEPROM_lockFlash, modify, bind, ret; simpl.
    eexists _, _; split; reflexivity.
Qed.

Lemma format_returns_locked s :
  exists st s', EEPROM_format s = Done st s' /\ lock s' = true.
Proof.
  unfold EEPROM_format.
  destruct (unlock_total s) as (s1 & H1 & _). step H1.
  destruct (wait_total s1) as (st1 & s2 & H2 & _ & C2). step H2.
  destruct C2 as [-> | ->]; simpl.
  - unfold modify at 1 2. unfold bind at 1 2.
    destruct (strt_total (set_addr EEPROM_ADDRESS (set_per true s2))) as (s3 & H3 & _).
    step H3.
    destruct (wait_total s3) as (st4 & s4 & H4 & _ & _). step H4.
    unfold modify, load16, EEPROM_lockFlash, bind, ret; simpl.
    destruct (mem s4 EEPROM_ADDRESS =? 65535); simpl; eexists _, _; split; reflexivity.
  - unfold EEPROM_lockFlash, modify, bind, ret; simpl.
    eexists _, _; split; reflexivity.
Qed.

Lemma writeHalfWord_locked a d s st s' :
  EEPROM_writeHalfWord a d s = Done st s' -> lock s' = true.
Proof.
  intros H. destruct (writeHalfWord_returns_locked a d s) as (st0 & s0 & H0 & L).
  rewrite H in H0. now injection H0 as <- <-.
Qed.

Lemma format_locked s st s' : EEPROM_format s = Done st s' -> lock s' = true.
Proof.
  intros H. destruct (format_returns_locked s) as (st0 & s0 & H0 & L).
  rewrite H in H0. now injection H0 as <- <-.
Qed.

(** A guarded call: whichever way it goes on, the state it hands over is
    locked. *)
Lemma guarded_locked (c : M Z) (k : M Z) s st s' :
  (forall s0 st0 s1, c s0 = Done st0 s1 -> lock s1 = true) ->
  (forall s0 st0 s1, lock s0 = true -> k s0 = Done st0 s1 -> lock s1 = true) ->
  (status <- c ;; if negb (status =? EEPROM_OK) then ret status else k) s
  = Done st s' ->
  lock s' = true.
Proof.
  intros Hc Hk H. apply bind_inv in H. destruct H as (st1 & s1 & H1 & H).
  apply Hc in H1. destruct (negb (st1 =? EEPROM_OK)).
  - unfold ret in H. now injection H as _ <-.
  - now apply (Hk s1 st s').
Qed.

Lemma write_vars_locked ws : forall a s st s',
  lock s = true -> write_vars ws a s = Done st s' -> lock s' = true.
Proof.
  induction ws as [|[id v] ws IH]; intros a s st s' L H.
  - unfold write_vars, ret in H. now injection H as _ <-.
  - cbn [write_vars] in H. revert H. apply guarded_locked.
    + intros s0 st0 s1. apply writeHalfWord_locked.
    + intros s0 st0 s1 _. apply guarded_locked.
      * intros s2 st2 s3. apply writeHalfWord_locked.
      * intros s2 st2 s3 _. apply guarded_locked.
        -- intros s4 st4 s5. apply writeHalfWord_locked.
        -- intros s4 st4 s5 L4. now apply IH.
Qed.

Lemma erase_and_mark_locked s st s' :
  erase_and_mark s = Done st s' -> lock s' = true.
Proof.
  unfold erase_and_mark. apply guarded_locked.
  - intros s0 st0 s1. apply format_locked.
  - intros s0 st0 s1 _. apply guarded_locked.
    + intros s2 st2 s3. apply writeHalfWord_locked.
    + intros s2 st2 s3 _. apply writeHalfWord_locked.
Qed.

Lemma rewrite_page_locked ws s st s' :
  rewrite_page ws s = Done st s' -> lock s' = true.
Proof.
  unfold rewrite_page. apply guarded_locked.
  - intros s0 st0 s1. apply erase_and_mark_locked.
  - intros s0 st0 s1 L. now apply write_vars_locked.
Qed.

(** An early return of a collect phase comes straight from a failed
    [erase_and_mark]. *)
Lemma collect_early_locked {A : Type} (c : M workset) (k : workset -> M (Z + A))
    init st s s' :
  (forall ws s1 s2, k ws s1 <> Done (inl st) s2) ->
  (r <- (if init =? 0 then
           status <- erase_and_mark ;;
           if negb (status =? EEPROM_OK) then ret (inl status) else ret (inr [])
         else ws <- c ;; ret (inr ws)) ;;
   match r with
   | inl status => ret (inl status)
   | inr ws => k ws
   end) s = Done (inl st) s' ->
  lock s' = true.
Proof.
  intros Hk H. apply bind_inv in H. destruct H as ([st0 | ws] & s1 & Hc & H).
  - unfold ret in H. injection H as _ <-.
    destruct (init =? 0).
    + apply bind_inv in Hc. destruct Hc as (st1 & s2 & He & Hc).
      apply erase_and_mark_locked in He.
      destruct (negb (st1 =? EEPROM_OK)); unfold ret in Hc;
        [now injection Hc as _ <-|discriminate Hc].
    + apply bind_inv in Hc. destruct Hc as (ws & s2 & _ & Hc). discriminate Hc.
  - exfalso. now apply (Hk ws s1 s').
Qed.

Lemma save_locked (c : M (Z + workset)) s st s' :
  (forall s0 st0 s1, c s0 = Done (inl st0) s1 -> lock s1 = true) ->
  (r <- c ;;
   match r with
   | inl status => ret status
   | inr ws => rewrite_page ws
   end) s = Done st s' ->
  lock s' = true.
Proof.
  intros Hc H. apply bind_inv in H. destruct H as ([st0 | ws] & s0 & H0 & H).
  - unfold ret in H. injection H as _ <-. now apply (Hc s st0).
  - now apply rewrite_page_locked in H.
Qed.

Lemma saveVar_locked id value s st s' :
  EEPROM_saveVar id value s = Done st s' -> lock s' = true.
Proof.
  unfold EEPROM_saveVar. apply save_locked. intros s0 st0 s1 H.
  unfold saveVar_collect in H. rewrite (bind_done _ _ _ _ _ (isInitialized_eq s0)) in H.
  revert H. apply collect_early_locked.
  intros ws s2 s3 Hk. apply bind_inv in Hk.
  destruct Hk as (? & ? & _ & Hk). discriminate Hk.
Qed.

Lemma saveVars_locked ids values count s st s' :
  EEPROM_saveVars ids values count s = Done st s' -> lock s' = true.
Proof.
  unfold EEPROM_saveVars. apply save_locked. intros s0 st0 s1 H.
  unfold saveVars_collect in H. rewrite (bind_done _ _ _ _ _ (isInitialized_eq s0)) in H.
  revert H. apply collect_early_locked.
  intros ws s2 s3 Hk. apply bind_inv in Hk.
  destruct Hk as (? & ? & _ & Hk). discriminate Hk.
Qed.

(** ** The save routines return *)

Lemma write_vars_total ws : forall a s,
  exists st s', write_vars ws a s = Done st s'
                /\ (st = EEPROM_OK \/ st = EEPROM_ERROR).
Proof.
  induction ws as [|[id v] ws IH]; intros a s.
  - eexists _, _. split; [reflexivity|now left].
  - cbn [write_vars].
    destruct (writeHalfWord_total a id s) as (st1 & s1 & H1 & (C1 & _)). step H1.
    destruct C1 as [-> | ->]; [passed|eexists _, _; split; [reflexivity|now right]].
    destruct (writeHalfWord_total (add32 a 2) v s1) as (st2 & s2 & H2 & (C2 & _)).
    step H2.
    destruct C2 as [-> | ->]; [passed|eexists _, _; split; [reflexivity|now right]].
    destruct (writeHalfWord_total (add32 a 4) (EEPROM_calcCRC id v) s2)
      as (st3 & s3 & H3 & (C3 & _)).
    step H3.
    destruct C3 as [-> | ->]; [passed|eexists _, _; split; [reflexivity|now right]].
    apply IH.
Qed.

Lemma erase_and_mark_total s :
  exists st s', erase_and_mark s = Done st s'
                /\ (st = EEPROM_OK \/ st = EEPROM_ERROR).
Proof.
  unfold erase_and_mark.
  destruct (format_total s) as (st1 & s1 & H1 & (C1 & _)). step H1.
  destruct C1 as [-> | ->]; [passed|eexists _, _; split; [reflexivity|now right]].
  destruct (writeHalfWord_total EEPROM_ADDRESS EEPROM_MARKER s1)
    as (st2 & s2 & H2 & (C2 & _)).
  step H2.
  destruct C2 as [-> | ->]; [passed|eexists _, _; split; [reflexivity|now right]].
  destruct (writeHalfWord_total (EEPROM_ADDRESS + 2) 0 s2) as (st3 & s3 & H3 & (C3 & _)).
  exists st3, s3. split; [exact H3|exact C3].
Qed.

Lemma rewrite_page_total ws s :
  exists st s', rewrite_page ws s = Done st s'
                /\ (st = EEPROM_OK \/ st = EEPROM_ERROR).
Proof.
  unfold rewrite_page.
  destruct (erase_and_mark_total s) as (st1 & s1 & H1 & C1). step H1.
  destruct C1 as [-> | ->]; [passed|eexists _, _; split; [reflexivity|now right]].
  apply write_vars_total.
Qed.

Lemma saveVar_collect_total id value s :
  has_room id (mem s) ->
  exists r s0, saveVar_collect id value s = Done r s0
               /\ match r with inl st => st = EEPROM_ERROR | inr _ => True end.
Proof.
  intros Hroom. unfold saveVar_collect. step (isInitialized_eq s).
  unfold has_room, survivors1, entries in Hroom.
  destruct (initialized (mem s)) eqn:E.
  - change (1 =? 0) with false. cbv iota.
    rewrite bind_assoc, slot_addr_0.
    destruct (saveVar_scan_spec id MAX_VARS 0 [] (logged [EEPROM_ADDRESS] s))
      as (l & Hl); [unfold MAX_VARS; lia|simpl; lia|].
    step Hl. unfold ret at 1. unfold bind at 1. cbv iota.
    rewrite mem_logged. cbn [app].
    step (ws_push_ok _ id value (logged l (logged [EEPROM_ADDRESS] s)) (Hroom eq_refl)).
    eexists _, _. split; [reflexivity|exact I].
  - change (0 =? 0) with true. cbv iota. rewrite bind_assoc.
    destruct (erase_and_mark_total (logged [EEPROM_ADDRESS] s)) as (st1 & s1 & H1 & C1).
    step H1. destruct C1 as [-> | ->].
    + passed. unfold ret at 1. unfold bind at 1. cbv iota.
      assert (H0 : (length (@nil (Z * Z)) < MAX_VARS)%nat)
        by (unfold MAX_VARS; simpl; lia).
      step (ws_push_ok [] id value s1 H0).
      eexists _, _. split; [reflexivity|exact I].
    + eexists _, _. split; [reflexivity|reflexivity].
Qed.


Lemma new_pairs_halfwords ids values count n :
  Forall (fun x => 0 <= x < 256) (new_ids ids count) ->
  Forall halfword (firstn (Z.to_nat count) values) ->
  Forall pair_halfwords (firstn n (new_pairs ids values count)).
Proof.
  intros Hi Hv. apply Forall_forall. intros [x v] Hin. apply In_firstn in Hin.
  unfold new_pairs in Hin. rewrite Forall_forall in Hi, Hv. split; cbn [fst snd].
  - apply byte_halfword, Hi. now apply in_combine_l in Hin.
  - apply Hv. now apply in_combine_r in Hin.
Qed.

(** The collect phase of [EEPROM_saveVars] on a sound part. *)
Lemma saveVars_collect_sound ids values count s :
  sound s ->
  (Z.to_nat count <= length ids)%nat ->
  (Z.to_nat count <= length values)%nat ->
  exists s0, saveVars_collect ids values count s
             = Done (inr (saveVars_set ids values count (mem s))) s0
             /\ sound s0
             /\ spent s s0 (if initialized (mem s) then 0 else 1)
                            (if initialized (mem s) then 0 else 2).
Proof.
  intros Hs Hci Hcv. unfold saveVars_collect.
  step (isInitialized_eq s). unfold saveVars_set, survivors2, new_pairs, entries.
  destruct (initialized (mem s)) eqn:E.
  - change (1 =? 0) with false. cbv iota.
    rewrite bind_assoc, slot_addr_0.
    destruct (saveVars_scan_spec ids count MAX_VARS 0 [] (logged [EEPROM_ADDRESS] s))
      as (l & Hl); [exact Hci|unfold MAX_VARS; lia|simpl; lia|].
    step Hl. unfold ret at 1. unfold bind at 1. cbv iota.
    step (saveVars_append_spec ids values _ 0%nat
            ([] ++ map pair_of
                     (filter (keep2 (new_ids ids count))
                             (scan (mem (logged [EEPROM_ADDRESS] s)) 0 MAX_VARS)))
            (logged l (logged [EEPROM_ADDRESS] s)) Hci Hcv).
    rewrite mem_logged. cbn [app skipn].
    eexists. split; [reflexivity|]. split; [exact Hs|].
    apply (spent_trans _ _ _ 0 0 0 0 (spent_logged [EEPROM_ADDRESS] s)).
    apply spent_logged.
  - change (0 =? 0) with true. cbv iota. rewrite bind_assoc.
    destruct (erase_and_mark_sound _ (sound_logged [EEPROM_ADDRESS] s Hs))
      as (s1 & H1 & Hs1 & _ & _ & W1).
    step H1. passed. unfold ret at 1. unfold bind at 1. cbv iota.
    step (saveVars_append_spec ids values _ 0%nat [] s1 Hci Hcv).
    cbn [app skipn filter map length].
    eexists. split; [reflexivity|]. split; [exact Hs1|].
    apply (spent_trans _ _ _ 0 0 1 2 (spent_logged [EEPROM_ADDRESS] s) W1).
Qed.

Lemma saveVars_sound ids values count s :
  sound s ->
  (Z.to_nat count <= length ids)%nat ->
  (Z.to_nat count <= length values)%nat ->
  Forall (fun x => 0 <= x < 256) (new_ids ids count) ->
  Forall halfword (firstn (Z.to_nat count) values) ->
  exists s', EEPROM_saveVars ids values count s = Done EEPROM_OK s'
             /\ sound s' /\ lock s' = true
             /\ spent s s' (if initialized (mem s) then 1 else 2)
                           ((if initialized (mem s) then 2 else 4)
                            + 3 * length (saveVars_set ids values count (mem s))).
Proof.
  intros Hs Hci Hcv Hi Hv. unfold EEPROM_saveVars.
  destruct (saveVars_collect_sound ids values count s Hs Hci Hcv)
    as (s0 & Hc & Hs0 & W0).
  step Hc.
  destruct (rewrite_page_sound (saveVars_set ids values count (mem s)) s0 Hs0)
    as (s' & H' & Hs' & L' & W').
  - unfold saveVars_set. apply Forall_app. split.
    + apply survivors2_halfwords, Hs.
    + now apply new_pairs_halfwords.
  - apply saveVars_set_length.
  - exists s'. split; [exact H'|]. split; [exact Hs'|]. split; [exact L'|].
    pose proof (spent_trans _ _ _ _ _ _ _ W0 W') as W.
    unfold spent in *. destruct (initialized (mem s)); lia.
Qed.

Lemma erase_page_twice m x :
  erase_page (erase_page m EEPROM_ADDRESS) EEPROM_ADDRESS x
  = erase_page m EEPROM_ADDRESS x.
Proof. unfold erase_page. now destruct (same_page x EEPROM_ADDRESS). Qed.

Lemma blank_sound : sound blank.
Proof.
  split.
  - split; [reflexivity|]. split; [reflexivity|constructor].
  - intros x. unfold halfword. simpl. lia.
Qed.


(** ** Further properties of the driver *)

(** X6. [EEPROM_waitForLastOperation] returns [EEPROM_OK] exactly when BSY
    is seen set fewer than 50000 times.  Seen set 50000 times it returns
    [EEPROM_ERROR] even when the very next read -- which the loop still
    makes -- finds it clear.  It never touches the array. *)
Theorem wait_times_out_at_50000 (s : Flash) :
  exists s',
    EEPROM_waitForLastOperation s
    = Done (if (busy s <? 50000)%N then EEPROM_OK else EEPROM_ERROR) s'
    /\ mem s' = mem s
    /\ busy s' = (if (busy s <? 50000)%N then 0 else busy s - 50001)%N.
Proof.
  rewrite wait_spec. destruct (busy s <? 50000)%N; eexists;
    (split; [reflexivity|split; reflexivity]).
Qed.

(** X7. On a working part [EEPROM_writeHalfWord a d] returns [EEPROM_OK]
    exactly when the cell then holds [d], which is when [d] sets no bit that
    the cell had clear; no other cell changes and the controller is left
    locked.  The cell is programmed either way: after a write that returns
    [EEPROM_ERROR] it holds the bitwise and of its old value and [d]. *)
Theorem writeHalfWord_on_working_part (a d : Z) (s : Flash) :
  working s ->
  exists st s',
    EEPROM_writeHalfWord a d s = Done st s'
    /\ (st = EEPROM_OK <-> mem s' a = d)
    /\ (st = EEPROM_OK \/ st = EEPROM_ERROR)
    /\ mem s' a = Z.land (mem s a) d
    /\ (forall x, x <> a -> mem s' x = mem s x)
    /\ lock s' = true
    /\ working s'.
Proof.
  intros Hs. destruct (write_working a d s Hs) as (s' & H & Hw & L & M & _).
  eexists _, s'. split; [exact H|].
  assert (Ma : mem s' a = Z.land (mem s a) d) by (rewrite M; apply upd_same).
  split; [|split; [|split; [exact Ma|split; [|split; [exact L|exact Hw]]]]].
  - rewrite Ma. destruct (Z.land (mem s a) d =? d) eqn:E.
    + apply Z.eqb_eq in E. split; auto.
    + apply Z.eqb_neq in E. split; [discriminate|contradiction].
  - destruct (Z.land (mem s a) d =? d); auto.
  - intros x Hx. rewrite M. now apply upd_other.
Qed.

Lemma writeHalfWord_on_working_part_witness :
  exists st s',
    EEPROM_writeHalfWord (slot_addr 0) 6 (after (EEPROM_saveVar 5 1234) blank)
    = Done st s'
    /\ (st = EEPROM_OK <-> mem s' (slot_addr 0) = 6)
    /\ (st = EEPROM_OK \/ st = EEPROM_ERROR)
    /\ mem s' (slot_addr 0)
       = Z.land (mem (after (EEPROM_saveVar 5 1234) blank) (slot_addr 0)) 6
    /\ (forall x, x <> slot_addr 0 ->
          mem s' x = mem (after (EEPROM_saveVar 5 1234) blank) x)
    /\ lock s' = true
    /\ working s'.
Proof.
  apply (writeHalfWord_on_working_part (slot_addr 0) 6
           (after (EEPROM_saveVar 5 1234) blank)).
  split; [vm_compute; reflexivity|].
  split; [vm_compute; reflexivity|vm_compute; constructor].
Defined.

(** X8. On a working part [EEPROM_format] returns [EEPROM_OK], sets every
    half-word of the page to 0xFFFF and none outside it, leaves no entry and
    the controller locked; a second call does the same and changes
    nothing. *)
Theorem format_on_working_part (s : Flash) :
  working s ->
  exists s',
    EEPROM_format s = Done EEPROM_OK s'
    /\ (forall x, in_region x -> mem s' x = 0xFFFF)
    /\ (forall x, ~ in_region x -> mem s' x = mem s x)
    /\ entries (mem s') = []
    /\ lock s' = true
    /\ exists s'', EEPROM_format s' = Done EEPROM_OK s''
                   /\ forall x, mem s'' x = mem s' x.
Proof.
  intros Hs. destruct (format_working s Hs) as (s' & H & Hw & L & M & _).
  exists s'. split; [exact H|].
  assert (Hin : forall x, in_region x -> mem s' x = 0xFFFF).
  { intros x Hx. rewrite M. unfold erase_page. now rewrite same_page_region. }
  split; [exact Hin|]. split; [|split; [|split; [exact L|]]].
  - intros x Hx. rewrite M. unfold erase_page.
    destruct (same_page x EEPROM_ADDRESS) eqn:E; [|reflexivity].
    apply same_page_iff in E. contradiction.
  - unfold entries, initialized. rewrite M, erase_page_base. reflexivity.
  - destruct (format_working s' Hw) as (s'' & H' & _ & _ & M' & _).
    exists s''. split; [exact H'|]. intros x. rewrite M', M.
    apply erase_page_twice.
Qed.

Lemma format_on_working_part_witness :
  exists s',
    EEPROM_format (after (EEPROM_saveVar 5 1234) blank) = Done EEPROM_OK s'
    /\ (forall x, in_region x -> mem s' x = 0xFFFF)
    /\ (forall x, ~ in_region x ->
          mem s' x = mem (after (EEPROM_saveVar 5 1234) blank) x)
    /\ entries (mem s') = []
    /\ lock s' = true
    /\ exists s'', EEPROM_format s' = Done EEPROM_OK s''
                   /\ forall x, mem s'' x = mem s' x.
Proof.
  apply (format_on_working_part (after (EEPROM_saveVar 5 1234) blank)).
  split; [vm_compute; reflexivity|].
  split; [vm_compute; reflexivity|vm_compute; constructor].
Defined.

(** X9. Every routine that unlocks the controller locks it again on every
    return path: whenever [EEPROM_format], [EEPROM_writeHalfWord],
    [EEPROM_saveVar] or [EEPROM_saveVars] returns, with whichever status,
    LOCK is set. *)
Theorem mutators_leave_flash_locked :
  (forall s st s', EEPROM_format s = Done st s' -> lock s' = true)
  /\ (forall a d s st s', EEPROM_writeHalfWord a d s = Done st s' -> lock s' = true)
  /\ (forall id value s st s',
         EEPROM_saveVar id value s = Done st s' -> lock s' = true)
  /\ (forall ids values count s st s',
         EEPROM_saveVars ids values count s = Done st s' -> lock s' = true).
Proof.
  split; [exact format_locked|].
  split; [exact writeHalfWord_locked|].
  split; [exact saveVar_locked|exact saveVars_locked].
Qed.

Lemma mutators_leave_flash_locked_witness :
  lock (after (EEPROM_saveVar 5 1234) slow_seventh) = true.
Proof.
  apply (proj1 (proj2 (proj2 mutators_leave_flash_locked)) 5 1234 slow_seventh
           EEPROM_ERROR (after (EEPROM_saveVar 5 1234) slow_seventh)).
  vm_compute. reflexivity.
Defined.

(** X10. [EEPROM_saveVar] returns, with [EEPROM_OK] or [EEPROM_ERROR],
    whenever the region is not initialised or has fewer than ten live
    entries with other ids: only the full region takes it outside its
    arrays. *)
Theorem saveVar_returns_unless_full (id value : Z) (s : Flash) :
  has_room id (mem s) ->
  exists st s', EEPROM_saveVar id value s = Done st s'
                /\ (st = EEPROM_OK \/ st = EEPROM_ERROR).
Proof.
  intros Hroom. unfold EEPROM_saveVar.
  destruct (saveVar_collect_total id value s Hroom) as ([st | ws] & s0 & Hc & Hr).
  - step Hc. subst st. eexists _, _. split; [reflexivity|now right].
  - step Hc. apply rewrite_page_total.
Qed.

Lemma saveVar_returns_unless_full_witness :
  exists st s', EEPROM_saveVar 9 99 full_region = Done st s'
                /\ (st = EEPROM_OK \/ st = EEPROM_ERROR).
Proof.
  apply (saveVar_returns_unless_full 9 99 full_region).
  intros _. vm_compute. lia.
Defined.

(** X11. [EEPROM_saveVars] always returns, with [EEPROM_OK] or
    [EEPROM_ERROR], when the caller's arrays hold [count] elements: its
    guard keeps it inside [varIds] and [varValues] whatever the region
    holds. *)
Theorem saveVars_always_returns (ids values : list Z) (count : Z) (s : Flash) :
  (Z.to_nat count <= length ids)%nat ->
  (Z.to_nat count <= length values)%nat ->
  exists st s', EEPROM_saveVars ids values count s = Done st s'
                /\ (st = EEPROM_OK \/ st = EEPROM_ERROR).
Proof.
  intros Hci Hcv. unfold EEPROM_saveVars.
  destruct (saveVars_within_capacity ids values count s Hci Hcv)
    as ([st | ws] & s0 & Hc & Hr).
  - step Hc. subst st. eexists _, _. split; [reflexivity|now right].
  - step Hc. apply rewrite_page_total.
Qed.

Lemma saveVars_always_returns_witness :
  exists st s', EEPROM_saveVars [20; 21] [1; 2] 2 full_region = Done st s'
                /\ (st = EEPROM_OK \/ st = EEPROM_ERROR).
Proof.
  apply (saveVars_always_returns [20; 21] [1; 2] 2 full_region); simpl; lia.
Defined.

(** X12. On a working part whose cells hold half-words, [EEPROM_saveVar id
    value] with room for the id returns [EEPROM_OK] for every 8-bit id and
    16-bit value, and [EEPROM_readVar id] then returns the value.  It starts
    one page erase on an initialised region and two on one without the
    marker, and stores the two header half-words once per erase and three
    half-words for each surviving entry and for the new one. *)
Theorem saveVar_succeeds_on_working_part (id value : Z) (s : Flash) :
  sound s -> 0 <= id < 256 -> halfword value -> has_room id (mem s) ->
  exists s',
    EEPROM_saveVar id value s = Done EEPROM_OK s'
    /\ value_of (EEPROM_readVar id s') = Some value
    /\ sound s'
    /\ spent s s' (if initialized (mem s) then 1 else 2)
                  ((if initialized (mem s) then 2 else 4)
                   + 3 * (length (survivors1 id (mem s)) + 1)).
Proof.
  intros Hs Hid Hv Hroom.
  destruct (saveVar_sound id value s Hs Hid Hv Hroom) as (s' & H & Hs' & _ & W).
  exists s'. split; [exact H|]. split; [|split; [exact Hs'|exact W]].
  rewrite readVar_spec. cbn [value_of]. f_equal.
  now apply (saveVar_reads_back id value s s').
Qed.

Lemma saveVar_succeeds_on_working_part_witness :
  exists s',
    EEPROM_saveVar 5 1234 blank = Done EEPROM_OK s'
    /\ value_of (EEPROM_readVar 5 s') = Some 1234
    /\ sound s'
    /\ spent blank s' (if initialized (mem blank) then 1 else 2)
                      ((if initialized (mem blank) then 2 else 4)
                       + 3 * (length (survivors1 5 (mem blank)) + 1)).
Proof.
  apply (saveVar_succeeds_on_working_part 5 1234 blank).
  - exact blank_sound.
  - lia.
  - unfold halfword. lia.
  - intros H. discriminate H.
Defined.

(** X13. On such a part [EEPROM_saveVars] returns [EEPROM_OK] for every
    list of 8-bit ids and 16-bit values, however long, and starts a single
    page erase on an initialised region (two without the marker): one erase
    for the whole batch, where a call of [EEPROM_saveVar] per id costs one
    erase each. *)
Theorem saveVars_succeeds_on_working_part (ids values : list Z) (count : Z)
    (s : Flash) :
  sound s ->
  (Z.to_nat count <= length ids)%nat ->
  (Z.to_nat count <= length values)%nat ->
  Forall (fun x => 0 <= x < 256) (new_ids ids count) ->
  Forall halfword (firstn (Z.to_nat count) values) ->
  exists s',
    EEPROM_saveVars ids values count s = Done EEPROM_OK s'
    /\ sound s'
    /\ spent s s' (if initialized (mem s) then 1 else 2)
                  ((if initialized (mem s) then 2 else 4)
                   + 3 * length (saveVars_set ids values count (mem s))).
Proof.
  intros Hs Hci Hcv Hi Hv.
  destruct (saveVars_sound ids values count s Hs Hci Hcv Hi Hv)
    as (s' & H & Hs' & _ & W).
  exists s'. split; [exact H|]. split; [exact Hs'|exact W].
Qed.

Lemma saveVars_succeeds_on_working_part_witness :
  exists s',
    EEPROM_saveVars [1; 2; 3] [10; 20; 30] 3 blank = Done EEPROM_OK s'
    /\ sound s'
    /\ spent blank s' (if initialized (mem blank) then 1 else 2)
                      ((if initialized (mem blank) then 2 else 4)
                       + 3 * length (saveVars_set [1; 2; 3] [10; 20; 30] 3 (mem blank))).
Proof.
  apply (saveVars_succeeds_on_working_part [1; 2; 3] [10; 20; 30] 3 blank).
  - exact blank_sound.
  - simpl. lia.
  - simpl. lia.
  - repeat constructor; lia.
  - repeat constructor; unfold halfword; lia.
Defined.

(** X14. The demonstration counts and remembers.  On a working part with
    room for id 1, [main] starts from what [EEPROM_readVar 1] returns -- 0xFFFF
    on a part that never stored it, so that the count starts over at 0 --
    prints that number and its successors modulo 65536, one per pass, and
    after [n] passes id 1 reads as the start plus [n] modulo 65536: a run
    that starts after a reset goes on from there. *)
Theorem main_counts_and_remembers (n : nat) (s : Flash) :
  sound s -> has_room 1 (mem s) ->
  let start := read_value 1 (mem s) in
  exists s',
    main n s
    = Done ((start + Z.of_nat n) mod 65536,
            map (fun i => (start + Z.of_nat i) mod 65536) (seq 0 n)) s'
    /\ value_of (EEPROM_readVar 1 s') = Some ((start + Z.of_nat n) mod 65536)
    /\ sound s' /\ has_room 1 (mem s').
Proof.
  intros Hs Hroom start. unfold main, EEPROM_init.
  unfold ret at 1. unfold bind at 1.
  step (readVar_spec 1 s). fold start.
  assert (Ht : halfword start) by (apply read_value_halfword, Hs).
  destruct (main_loop_sound n start [] (logged (readVar_loads 1 (mem s)) s)
              Hs Hroom Ht) as (s' & H & Hs' & Hroom' & Hread).
  exists s'. split; [exact H|]. split; [|split; [exact Hs'|exact Hroom']].
  rewrite readVar_spec. cbn [value_of]. f_equal.
  destruct n as [|n].
  - cbn [main_loop] in H. unfold ret in H. injection H as _ <-.
    rewrite mem_logged. fold start. change (Z.of_nat 0) with 0.
    rewrite Z.add_0_r. symmetry. apply Z.mod_small. exact Ht.
  - apply Hread. lia.
Qed.

Lemma main_counts_and_remembers_witness :
  exists s',
    main 3 blank = Done (2, [0xFFFF; 0; 1]) s'
    /\ value_of (EEPROM_readVar 1 s') = Some 2
    /\ sound s' /\ has_room 1 (mem s').
Proof.
  exact (main_counts_and_remembers 3 blank blank_sound
           (fun H : initialized (mem blank) = true =>
              False_ind _ (Bool.diff_false_true H))).
Defined.
